(** * Dataset adapters of kedro-datasets: a shallow embedding

    The development follows four modules of [kedro_datasets]:
    - [langchain/cohere.py]                  ([CohereDataset]),
    - [biosequence/biosequence_dataset.py]   ([BioSequenceDataset]),
    - [networkx/graphml_dataset.py]          ([GraphMLDataset]),
    - [pandas/gbq_dataset.py]                ([GBQTableDataset], [GBQQueryDataset]).

    Python values are an inductive type, option maps are insertion-ordered
    association lists (the order of a [dict] is observable through [str]),
    exceptions are a result type, and every call that leaves the module
    (fsspec, Biopython, networkx, pandas-gbq, google-cloud-bigquery, cohere)
    is a node of a small free monad, answered by an arbitrary handler. *)

From Stdlib Require Import String List ZArith Bool Lia.
Import ListNotations.
Open Scope list_scope.
Open Scope string_scope.

Set Implicit Arguments.
Set Warnings "-register-all".

(* ================================================================== *)
(** ** Python values *)

Inductive pyval : Type :=
| PyNone
| PyBool (b : bool)
| PyInt (z : Z)
| PyStr (s : string)
| PyPath (p : string)                      (* pathlib.PurePosixPath *)
| PyTuple (l : list pyval)
| PyList (l : list pyval)
| PyDict (d : list (string * pyval)).

(** A [dict] with string keys, in insertion order. *)
Definition dict : Type := list (string * pyval).

Definition keys (d : dict) : list string := map fst d.

(** Python dictionaries never hold a key twice. *)
Definition dict_wf (d : dict) : Prop := NoDup (keys d).

(** [k in d] *)
Fixpoint has_key (k : string) (d : dict) : bool :=
  match d with
  | [] => false
  | (k', _) :: d' => if String.eqb k k' then true else has_key k d'
  end.

(** Lookup of a key; [None] is "no such key", not Python's [None]. *)
Fixpoint dict_get (k : string) (d : dict) : option pyval :=
  match d with
  | [] => None
  | (k', v) :: d' => if String.eqb k k' then Some v else dict_get k d'
  end.

(** [d.get(k)]: the value, or Python's [None] when the key is absent. *)
Definition get (d : dict) (k : string) : pyval :=
  match dict_get k d with
  | Some v => v
  | None => PyNone
  end.

(** [d[k] = v]: an existing key keeps its position, a new key goes last. *)
Fixpoint dict_set (k : string) (v : pyval) (d : dict) : dict :=
  match d with
  | [] => [(k, v)]
  | (k', v') :: d' =>
      if String.eqb k k' then (k', v) :: d'
      else (k', v') :: dict_set k v d'
  end.

(** [d.update(u)]: the bindings of [u], in order, assigned into [d]. *)
Definition update (d u : dict) : dict :=
  fold_left (fun acc kv => dict_set (fst kv) (snd kv) acc) u d.

(** [del d[k]] for a key that may be absent. *)
Fixpoint dict_remove (k : string) (d : dict) : dict :=
  match d with
  | [] => []
  | (k', v) :: d' =>
      if String.eqb k k' then d' else (k', v) :: dict_remove k d'
  end.

(** [d.pop(k, default)]: the value found (or the default) and the rest. *)
Definition pop (d : dict) (k : string) (default : pyval) : pyval * dict :=
  (match dict_get k d with Some v => v | None => default end,
   dict_remove k d).

(** [d.setdefault(k, v)], as the dictionary it leaves behind. *)
Definition setdefault (d : dict) (k : string) (v : pyval) : dict :=
  if has_key k d then d else dict_set k v d.

(** [copy.deepcopy] of a value.  Values here carry no object identity:
    two mappings inside one argument are read as two objects, and what
    the code does when they are one shared object is not followed. *)
Definition deepcopy {A : Type} (x : A) : A := x.

(** Python's [==] on the values above: [bool] is a subtype of [int],
    sequences compare pointwise, dictionaries regardless of order. *)
Fixpoint py_eqb (a b : pyval) : bool :=
  match a, b with
  | PyNone, PyNone => true
  | PyBool x, PyBool y => Bool.eqb x y
  | PyBool x, PyInt y => Z.eqb (Z.b2z x) y
  | PyInt x, PyBool y => Z.eqb x (Z.b2z y)
  | PyInt x, PyInt y => Z.eqb x y
  | PyStr x, PyStr y => String.eqb x y
  | PyPath x, PyPath y => String.eqb x y
  | PyTuple x, PyTuple y | PyList x, PyList y =>
      (fix seq_eqb (x y : list pyval) {struct x} : bool :=
         match x, y with
         | [], [] => true
         | u :: x', v :: y' => py_eqb u v && seq_eqb x' y'
         | _, _ => false
         end) x y
  | PyDict x, PyDict y =>
      Nat.eqb (length x) (length y) &&
      (fix sub (x : dict) : bool :=
         match x with
         | [] => true
         | (k, u) :: x' =>
             match dict_get k y with
             | Some v => py_eqb u v && sub x'
             | None => false
             end
         end) x
  | _, _ => false
  end.

(** [a != b] *)
Definition py_neb (a b : pyval) : bool := negb (py_eqb a b).

(** Truth value of an optional string argument ([None] and [""] are false). *)
Definition truthy_str (s : option string) : bool :=
  match s with
  | Some s' => negb (String.eqb s' "")
  | None => false
  end.

(** [d or {}] for an optional mapping argument. *)
Definition or_empty (d : option dict) : dict :=
  match d with
  | Some ((_ :: _) as d') => d'
  | _ => []
  end.

(* ================================================================== *)
(** ** Exceptions and results *)

Inductive exn : Type :=
| DatasetError (msg : string)
| KeyError (key : string)
| TypeError (msg : string)
| AttributeError (msg : string)
| NotFound (msg : string)                (* google.cloud.exceptions.NotFound *)
| OtherError (cls msg : string).         (* any other exception class *)

Inductive result (A : Type) : Type :=
| Ok (a : A)
| Raise (e : exn).
Arguments Ok {A} a.
Arguments Raise {A} e.

Definition is_ok {A} (r : result A) : bool :=
  match r with Ok _ => true | Raise _ => false end.

Definition is_DatasetError (e : exn) : bool :=
  match e with DatasetError _ => true | _ => false end.

Definition is_NotFound (e : exn) : bool :=
  match e with NotFound _ => true | _ => false end.

(** [d[k]] *)
Definition subscript (d : dict) (k : string) : result pyval :=
  match dict_get k d with
  | Some v => Ok v
  | None => Raise (KeyError k)
  end.

(** [v.setdefault(k, x)] on a value that should be a [dict]. *)
Definition attr_setdefault (v : pyval) (k : string) (x : pyval) : result dict :=
  match v with
  | PyDict d => Ok (setdefault d k x)
  | _ => Raise (AttributeError "object has no attribute 'setdefault'")
  end.

(* ================================================================== *)
(** ** Collaborators

    Objects owned by the libraries the adapters delegate to are opaque and
    known by identity only. *)

Variant Credentials : Type := Credentials_at (id : nat).
Variant Client : Type := Client_at (id : nat).
Variant DataFrame : Type := DataFrame_at (id : nat).
Variant FileSystem : Type := FileSystem_at (id : nat).
Variant File : Type := File_at (id : nat).
Variant Graph : Type := Graph_at (id : nat).
Variant CohereClient : Type := CohereClient_at (id : nat).

(** [Bio.SeqRecord.SeqRecord], as far as the adapters' docstring reads it. *)
Record SeqRecord : Type := { id : string; seq : string }.

(** [kedro.io.core.Version], a named tuple. *)
Record Version : Type := { load : option string; save : option string }.

Definition opt_str (s : option string) : pyval :=
  match s with Some s' => PyStr s' | None => PyNone end.

Definition Version_value (v : option Version) : pyval :=
  match v with
  | Some v' => PyTuple [opt_str (load v'); opt_str (save v')]
  | None => PyNone
  end.

(** [langchain.llms.Cohere]: the attributes [CohereDataset._load] touches. *)
Record Cohere : Type :=
  { llm_id : nat;
    user_agent : string;
    client : option CohereClient;
    async_client : option CohereClient }.

(** [client.dataset(dataset).table(table_name)], a local reference. *)
Record TableReference : Type :=
  { ref_client : Client; ref_dataset : string; ref_table : string }.

(** Every call that leaves the adapters, with the arguments it is given.
    Keyword mappings are passed as they are: a clash of keywords is the
    callee's [TypeError]. *)
Inductive call : Type -> Type :=
(* google.oauth2.credentials, google.cloud.bigquery *)
| Credentials_new (kw : dict) : call Credentials
| bigquery_Client (project : option string) (credentials : option Credentials)
                  (location : pyval) : call Client
| get_table (client : Client) (table : TableReference) : call unit
(* pandas, pandas-gbq *)
| read_gbq (project_id : option string) (credentials : option Credentials)
           (kw : dict) : call DataFrame
| to_gbq (data : DataFrame) (destination_table : string)
         (project_id : option string) (credentials : option Credentials)
         (kw : dict) : call unit
(* fsspec *)
| fsspec_filesystem (protocol : string) (credentials : pyval) (kw : dict)
    : call FileSystem
| fs_open (fs : FileSystem) (path : string) (kw : dict) : call File
| fs_exists (fs : FileSystem) (path : string) : call bool
| fs_invalidate_cache (fs : FileSystem) (path : string) : call unit
| file_read (f : File) : call string
| file_exit (f : File) : call unit
(* Bio.SeqIO *)
| SeqIO_parse (handle : File) (kw : dict) : call (list SeqRecord)
| SeqIO_write (sequences : list SeqRecord) (handle : File) (kw : dict)
    : call nat
(* networkx *)
| read_graphml (path : File) (kw : dict) : call Graph
| write_graphml (G : Graph) (path : File) (kw : dict) : call unit
(* kedro.io.core.AbstractVersionedDataset *)
| _get_load_path (filepath : string) (version : option Version) : call string
| _get_save_path (filepath : string) (version : option Version) : call string
| super_release (filepath : string) (version : option Version) : call unit
(* langchain.llms, cohere *)
| Cohere_new (cohere_api_key : string) (kw : dict) : call Cohere
| cohere_Client (api_key api_url : pyval) (client_name : string)
    : call CohereClient
| cohere_AsyncClient (api_key api_url : pyval) (client_name : string)
    : call CohereClient.

(** Pure helpers of [kedro.io.core], [pathlib] and the builtins. *)
Class Lib : Type :=
  { get_protocol_and_path :
      string -> option Version -> result (string * string);
    get_filepath_str : string -> string -> string;
    PurePosixPath : string -> string;
    validate_on_forbidden_chars : dict -> result unit;
    str : pyval -> string }.

(* ================================================================== *)
(** ** Programs over the collaborators *)

Inductive prog (R : Type) : Type :=
| Ret (r : R)
| Call (X : Type) (c : call X) (k : result X -> prog R).
Arguments Ret {R} r.
Arguments Call {R X} c k.

(** A computation that returns an [A] or raises. *)
Definition E (A : Type) : Type := prog (result A).

Definition ret {A} (a : A) : E A := Ret (Ok a).
Definition raise {A} (e : exn) : E A := Ret (Raise e).
Definition lift {A} (r : result A) : E A := Ret r.
Definition do_call {X} (c : call X) : E X := Call c (fun r => Ret r).

Fixpoint bind {A B} (m : E A) (f : A -> E B) : E B :=
  match m with
  | Ret (Ok a) => f a
  | Ret (Raise e) => Ret (Raise e)
  | Call c k => Call c (fun r => bind (k r) f)
  end.

Notation "x <- m ;; k" := (bind m (fun x => k))
  (at level 61, m at next level, right associativity).
Notation "' p <- m ;; k" := (bind m (fun x => match x with p => k end))
  (at level 61, p pattern, m at next level, right associativity).
Notation "m ;; k" := (bind m (fun _ => k))
  (at level 61, right associativity).

(** [try: m  except e: h e] *)
Fixpoint try_except {A} (m : E A) (h : exn -> E A) : E A :=
  match m with
  | Ret (Ok a) => Ret (Ok a)
  | Ret (Raise e) => h e
  | Call c k => Call c (fun r => try_except (k r) h)
  end.

(** [try: m  finally: cleanup] *)
Fixpoint finally {A} (m : E A) (cleanup : E unit) : E A :=
  match m with
  | Ret r => bind cleanup (fun _ => Ret r)
  | Call c k => Call c (fun r => finally (k r) cleanup)
  end.

(** [with fs.open(path, **kw) as fs_file: body] *)
Definition with_open {A} (fs : FileSystem) (path : string) (kw : dict)
    (body : File -> E A) : E A :=
  fs_file <- do_call (fs_open fs path kw) ;;
  finally (body fs_file) (do_call (file_exit fs_file)).

(** A method leaves its result and the instance as it is afterwards. *)
Fixpoint leaving {S A} (self : S) (m : E A) : prog (result A * S) :=
  match m with
  | Ret r => Ret (r, self)
  | Call c k => Call c (fun r => leaving self (k r))
  end.

(** *** Running a program against an environment *)

(** The environment answers each call and moves to a new state. *)
Definition handler (W : Type) : Type :=
  forall X : Type, call X -> W -> result X * W.

Definition event : Type := { X : Type & call X }.

Definition ev {X} (c : call X) : event := existT _ X c.

(** The outcome, the final state of the environment, and the calls made. *)
Fixpoint run {W R} (h : handler W) (p : prog R) (w : W)
    : R * W * list event :=
  match p with
  | Ret r => (r, w, [])
  | Call c k =>
      let (x, w1) := h _ c w in
      let '(r, w2, t) := run h (k x) w1 in
      (r, w2, ev c :: t)
  end.

Definition outcome {W R} (h : handler W) (p : prog R) (w : W) : R :=
  fst (fst (run h p w)).
Definition trace {W R} (h : handler W) (p : prog R) (w : W) : list event :=
  snd (run h p w).
Definition final {W R} (h : handler W) (p : prog R) (w : W) : W :=
  snd (fst (run h p w)).

Definition is_invalidate (fs : FileSystem) (path : string) (e : event) : bool :=
  match e with
  | existT _ _ (fs_invalidate_cache fs' p) =>
      match fs, fs' with
      | FileSystem_at a, FileSystem_at b => Nat.eqb a b && String.eqb p path
      end
  | _ => false
  end.

Definition is_any_invalidate (e : event) : bool :=
  match e with
  | existT _ _ (fs_invalidate_cache _ _) => true
  | _ => false
  end.

Definition is_bigquery_Client (e : event) : bool :=
  match e with
  | existT _ _ (bigquery_Client _ _ _) => true
  | _ => false
  end.

(* ================================================================== *)
(** ** Shared construction steps *)

(** The block every constructor repeats:
    [args = deepcopy(DEFAULT_ARGS); if user is not None: args.update(user)]. *)
Definition merge_args (DEFAULT_ARGS : dict) (user : option dict) : dict :=
  let args := deepcopy DEFAULT_ARGS in
  match user with
  | Some u => update args u
  | None => args
  end.

(** The [credentials] argument of the BigQuery adapters:
    [Union[Dict[str, Any], Credentials] = None]. *)
Variant credentials_arg : Type :=
| CredNone
| CredDict (d : dict)
| CredObject (c : Credentials).

(** [if isinstance(credentials, dict): credentials = Credentials( **credentials )] *)
Definition coerce_credentials (credentials : credentials_arg)
    : E (option Credentials) :=
  match credentials with
  | CredDict d => c <- do_call (Credentials_new d) ;; ret (Some c)
  | CredObject c => ret (Some c)
  | CredNone => ret None
  end.

Definition dq : string := String (Ascii.ascii_of_nat 34) EmptyString.

(* ================================================================== *)
(** ** langchain/cohere.py *)

Module CohereDataset.

Record t : Type :=
  { cohere_api_url : pyval;
    cohere_api_key : pyval;
    kwargs : dict }.

Definition __init__ (credentials : dict) (kwargs : option dict) : E t :=
  cohere_api_url <- lift (subscript credentials "cohere_api_url") ;;
  cohere_api_key <- lift (subscript credentials "cohere_api_key") ;;
  ret {| cohere_api_url := cohere_api_url;
         cohere_api_key := cohere_api_key;
         kwargs := or_empty kwargs |}.

Definition _describe (self : t) : dict := kwargs self.

Definition _save (self : t) (data : pyval) : prog (result unit * t) :=
  leaving self
    (raise (DatasetError "CohereDataset is a read only data set type")).

Definition _load (self : t) : prog (result Cohere * t) :=
  leaving self
    (llm <- do_call (Cohere_new "_" (kwargs self)) ;;
     c <- do_call (cohere_Client (cohere_api_key self) (cohere_api_url self)
                     (user_agent llm)) ;;
     let llm := {| llm_id := llm_id llm; user_agent := user_agent llm;
                   client := Some c; async_client := async_client llm |} in
     a <- do_call (cohere_AsyncClient (cohere_api_key self)
                     (cohere_api_url self) (user_agent llm)) ;;
     ret {| llm_id := llm_id llm; user_agent := user_agent llm;
            client := client llm; async_client := Some a |}).

End CohereDataset.

(* ================================================================== *)
(** ** pandas/gbq_dataset.py *)

Module GBQTableDataset.
Section WithLib.
Context `{Lib}.

Definition DEFAULT_LOAD_ARGS : dict := [].
Definition DEFAULT_SAVE_ARGS : dict := [("progress_bar", PyBool false)].

Record t : Type :=
  { _load_args : dict;
    _save_args : dict;
    _dataset : string;
    _table_name : string;
    _project_id : option string;
    _credentials : option Credentials;
    _client : Client;
    metadata : option dict }.

Definition location_message : string :=
  dq ++ "load_args['location']" ++ dq ++ " is different from " ++
  dq ++ "save_args['location']" ++ dq ++ ". " ++
  "The 'location' defines where BigQuery data is stored, therefore has " ++
  "to be the same for save and load args. " ++
  "Details: https://cloud.google.com/bigquery/docs/locations".

(** Reads [self._save_args] and [self._load_args], the only attributes
    set when [__init__] calls it. *)
Definition _validate_location (_load_args _save_args : dict) : E unit :=
  let save_location := get _save_args "location" in
  let load_location := get _load_args "location" in
  if py_neb save_location load_location
  then raise (DatasetError location_message)
  else ret tt.

Definition __init__ (dataset table_name : string) (project : option string)
    (credentials : credentials_arg)
    (load_args save_args metadata : option dict) : E t :=
  let _load_args := merge_args DEFAULT_LOAD_ARGS load_args in
  let _save_args := merge_args DEFAULT_SAVE_ARGS save_args in
  _validate_location _load_args _save_args ;;
  lift (validate_on_forbidden_chars
          [("dataset", PyStr dataset); ("table_name", PyStr table_name)]) ;;
  credentials <- coerce_credentials credentials ;;
  _client <- do_call (bigquery_Client project credentials
                        (get _save_args "location")) ;;
  ret {| _load_args := _load_args;
         _save_args := _save_args;
         _dataset := dataset;
         _table_name := table_name;
         _project_id := project;
         _credentials := credentials;
         _client := _client;
         metadata := metadata |}.

Definition _describe (self : t) : dict :=
  [("dataset", PyStr (_dataset self));
   ("table_name", PyStr (_table_name self));
   ("load_args", PyDict (_load_args self));
   ("save_args", PyDict (_save_args self))].

(** [self._load_args = args] *)
Definition with_load_args (self : t) (args : dict) : t :=
  {| _load_args := args;
     _save_args := _save_args self;
     _dataset := _dataset self;
     _table_name := _table_name self;
     _project_id := _project_id self;
     _credentials := _credentials self;
     _client := _client self;
     metadata := metadata self |}.

Definition _load (self : t) : prog (result DataFrame * t) :=
  let sql := "select * from " ++ _dataset self ++ "." ++ _table_name self in
  let self :=
    with_load_args self (setdefault (_load_args self) "query" (PyStr sql)) in
  leaving self
    (do_call (read_gbq (_project_id self) (_credentials self)
                (_load_args self))).

Definition _save (self : t) (data : DataFrame) : prog (result unit * t) :=
  leaving self
    (do_call (to_gbq data (_dataset self ++ "." ++ _table_name self)
                (_project_id self) (_credentials self) (_save_args self))).

Definition _exists (self : t) : prog (result bool * t) :=
  let table_ref := {| ref_client := _client self;
                      ref_dataset := _dataset self;
                      ref_table := _table_name self |} in
  leaving self
    (try_except
       (do_call (get_table (_client self) table_ref) ;;
        ret true)
       (fun e => if is_NotFound e then ret false else raise e)).

End WithLib.
End GBQTableDataset.

Module GBQQueryDataset.
Section WithLib.
Context `{Lib}.

Definition DEFAULT_LOAD_ARGS : dict := [].

(** [_protocol] and [_fs] are only set on the [filepath] branch. *)
Record t : Type :=
  { _load_args : dict;
    _project_id : option string;
    _credentials : option Credentials;
    _client : Client;
    _filepath : option string;
    _protocol : option string;
    _fs : option FileSystem;
    metadata : option dict }.

Definition both_provided : string :=
  "'sql' and 'filepath' arguments cannot both be provided." ++
  "Please only provide one.".

Definition both_empty : string :=
  "'sql' and 'filepath' arguments cannot both be empty." ++
  "Please provide a sql query or path to a sql query file.".

Definition __init__ (sql project : option string)
    (credentials : credentials_arg) (load_args fs_args : option dict)
    (filepath : option string) (metadata : option dict) : E t :=
  if truthy_str sql && truthy_str filepath
  then raise (DatasetError both_provided)
  else if negb (truthy_str sql || truthy_str filepath)
  then raise (DatasetError both_empty)
  else
    let _load_args := merge_args DEFAULT_LOAD_ARGS load_args in
    let _project_id := project in
    credentials <- coerce_credentials credentials ;;
    _client <- do_call (bigquery_Client _project_id credentials
                          (get _load_args "location")) ;;
    if truthy_str sql then
      ret {| _load_args := dict_set "query" (opt_str sql) _load_args;
             _project_id := _project_id;
             _credentials := credentials;
             _client := _client;
             _filepath := None;
             _protocol := None;
             _fs := None;
             metadata := metadata |}
    else
      let _fs_args := or_empty (deepcopy fs_args) in
      let '(_fs_credentials, _fs_args) :=
        pop _fs_args "credentials" (PyDict []) in
      ' (protocol, path) <-
        lift (get_protocol_and_path (str (opt_str filepath)) None) ;;
      fs <- do_call (fsspec_filesystem protocol _fs_credentials _fs_args) ;;
      ret {| _load_args := _load_args;
             _project_id := _project_id;
             _credentials := credentials;
             _client := _client;
             _filepath := Some path;
             _protocol := Some protocol;
             _fs := Some fs;
             metadata := metadata |}.

Definition _describe (self : t) : dict :=
  let load_args := deepcopy (_load_args self) in
  let '(query, load_args) := pop load_args "query" PyNone in
  [("sql", PyStr (str query));
   ("filepath", PyStr (str (opt_str (_filepath self))));
   ("load_args", PyStr (str (PyDict load_args)))].

Definition _load (self : t) : prog (result DataFrame * t) :=
  let load_args := deepcopy (_load_args self) in
  leaving self
    (load_args <-
       (if truthy_str (_filepath self) then
          match _filepath self, _protocol self, _fs self with
          | Some filepath, Some protocol, Some fs =>
              let load_path :=
                get_filepath_str (PurePosixPath filepath) protocol in
              with_open fs load_path [("mode", PyStr "r")]
                (fun fs_file =>
                   query <- do_call (file_read fs_file) ;;
                   ret (dict_set "query" (PyStr query) load_args))
          | _, _, _ => raise (AttributeError "_fs")
          end
        else ret load_args) ;;
     do_call (read_gbq (_project_id self) (_credentials self) load_args)).

Definition _save (self : t) (data : pyval) : prog (result unit * t) :=
  leaving self
    (raise (DatasetError "'save' is not supported on GBQQueryDataset")).

End WithLib.
End GBQQueryDataset.

(* ================================================================== *)
(** ** biosequence/biosequence_dataset.py *)

Module BioSequenceDataset.
Section WithLib.
Context `{Lib}.

Definition DEFAULT_LOAD_ARGS : dict := [].
Definition DEFAULT_SAVE_ARGS : dict := [].

Record t : Type :=
  { _filepath : string;
    _protocol : string;
    _fs : FileSystem;
    _load_args : dict;
    _save_args : dict;
    _fs_open_args_load : dict;
    _fs_open_args_save : dict;
    metadata : option dict }.

Definition __init__ (filepath : string)
    (load_args save_args credentials fs_args metadata : option dict) : E t :=
  let _fs_args := or_empty (deepcopy fs_args) in
  let '(_fs_open_args_load, _fs_args) :=
    pop _fs_args "open_args_load" (PyDict []) in
  let '(_fs_open_args_save, _fs_args) :=
    pop _fs_args "open_args_save" (PyDict []) in
  let _credentials := or_empty (deepcopy credentials) in
  ' (protocol, path) <- lift (get_protocol_and_path filepath None) ;;
  let _filepath := PurePosixPath path in
  let _protocol := protocol in
  let _fs_args :=
    if String.eqb protocol "file"
    then setdefault _fs_args "auto_mkdir" (PyBool true)
    else _fs_args in
  fs <- do_call (fsspec_filesystem _protocol (PyDict _credentials) _fs_args) ;;
  let _load_args := merge_args DEFAULT_LOAD_ARGS load_args in
  let _save_args := merge_args DEFAULT_SAVE_ARGS save_args in
  _fs_open_args_load <-
    lift (attr_setdefault _fs_open_args_load "mode" (PyStr "r")) ;;
  _fs_open_args_save <-
    lift (attr_setdefault _fs_open_args_save "mode" (PyStr "w")) ;;
  ret {| _filepath := _filepath;
         _protocol := _protocol;
         _fs := fs;
         _load_args := _load_args;
         _save_args := _save_args;
         _fs_open_args_load := _fs_open_args_load;
         _fs_open_args_save := _fs_open_args_save;
         metadata := metadata |}.

Definition _describe (self : t) : dict :=
  [("filepath", PyPath (_filepath self));
   ("protocol", PyStr (_protocol self));
   ("load_args", PyDict (_load_args self));
   ("save_args", PyDict (_save_args self))].

Definition _load (self : t) : prog (result (list SeqRecord) * t) :=
  let load_path := get_filepath_str (_filepath self) (_protocol self) in
  leaving self
    (with_open (_fs self) load_path (_fs_open_args_load self)
       (fun fs_file => do_call (SeqIO_parse fs_file (_load_args self)))).

Definition _save (self : t) (data : list SeqRecord)
    : prog (result unit * t) :=
  let save_path := get_filepath_str (_filepath self) (_protocol self) in
  leaving self
    (with_open (_fs self) save_path (_fs_open_args_save self)
       (fun fs_file =>
          do_call (SeqIO_write data fs_file (_save_args self)) ;;
          ret tt)).

Definition _exists (self : t) : prog (result bool * t) :=
  let load_path := get_filepath_str (_filepath self) (_protocol self) in
  leaving self (do_call (fs_exists (_fs self) load_path)).

Definition invalidate_cache (self : t) : prog (result unit * t) :=
  let filepath := get_filepath_str (_filepath self) (_protocol self) in
  leaving self (do_call (fs_invalidate_cache (_fs self) filepath)).

Definition _release (self : t) : prog (result unit * t) :=
  invalidate_cache self.

End WithLib.
End BioSequenceDataset.

(* ================================================================== *)
(** ** networkx/graphml_dataset.py *)

Module GraphMLDataset.
Section WithLib.
Context `{Lib}.

Definition DEFAULT_LOAD_ARGS : dict := [].
Definition DEFAULT_SAVE_ARGS : dict := [].

(** [_filepath] and [_version] are the attributes the base class
    [AbstractVersionedDataset.__init__] stores from its arguments. *)
Record t : Type :=
  { _protocol : string;
    _fs : FileSystem;
    metadata : option dict;
    _filepath : string;
    _version : option Version;
    _load_args : dict;
    _save_args : dict;
    _fs_open_args_load : dict;
    _fs_open_args_save : dict }.

Definition __init__ (filepath : string) (load_args save_args : option dict)
    (version : option Version)
    (credentials fs_args metadata : option dict) : E t :=
  let _fs_args := or_empty (deepcopy fs_args) in
  let '(_fs_open_args_load, _fs_args) :=
    pop _fs_args "open_args_load" (PyDict []) in
  let '(_fs_open_args_save, _fs_args) :=
    pop _fs_args "open_args_save" (PyDict []) in
  let _credentials := or_empty (deepcopy credentials) in
  ' (protocol, path) <- lift (get_protocol_and_path filepath version) ;;
  let _fs_args :=
    if String.eqb protocol "file"
    then setdefault _fs_args "auto_mkdir" (PyBool true)
    else _fs_args in
  let _protocol := protocol in
  fs <- do_call (fsspec_filesystem _protocol (PyDict _credentials) _fs_args) ;;
  let _filepath := PurePosixPath path in
  let _load_args := merge_args DEFAULT_LOAD_ARGS load_args in
  let _save_args := merge_args DEFAULT_SAVE_ARGS save_args in
  _fs_open_args_load <-
    lift (attr_setdefault _fs_open_args_load "mode" (PyStr "rb")) ;;
  _fs_open_args_save <-
    lift (attr_setdefault _fs_open_args_save "mode" (PyStr "wb")) ;;
  ret {| _protocol := _protocol;
         _fs := fs;
         metadata := metadata;
         _filepath := _filepath;
         _version := version;
         _load_args := _load_args;
         _save_args := _save_args;
         _fs_open_args_load := _fs_open_args_load;
         _fs_open_args_save := _fs_open_args_save |}.

Definition _invalidate_cache (self : t) : E unit :=
  let filepath := get_filepath_str (_filepath self) (_protocol self) in
  do_call (fs_invalidate_cache (_fs self) filepath).

Definition _load (self : t) : prog (result Graph * t) :=
  leaving self
    (p <- do_call (_get_load_path (_filepath self) (_version self)) ;;
     let load_path := get_filepath_str p (_protocol self) in
     with_open (_fs self) load_path (_fs_open_args_load self)
       (fun fs_file => do_call (read_graphml fs_file (_load_args self)))).

Definition _save (self : t) (data : Graph) : prog (result unit * t) :=
  leaving self
    (p <- do_call (_get_save_path (_filepath self) (_version self)) ;;
     let save_path := get_filepath_str p (_protocol self) in
     with_open (_fs self) save_path (_fs_open_args_save self)
       (fun fs_file =>
          do_call (write_graphml data fs_file (_save_args self))) ;;
     _invalidate_cache self).

Definition _exists (self : t) : prog (result bool * t) :=
  leaving self
    (p <- do_call (_get_load_path (_filepath self) (_version self)) ;;
     let load_path := get_filepath_str p (_protocol self) in
     do_call (fs_exists (_fs self) load_path)).

Definition _describe (self : t) : dict :=
  [("filepath", PyPath (_filepath self));
   ("protocol", PyStr (_protocol self));
   ("load_args", PyDict (_load_args self));
   ("save_args", PyDict (_save_args self));
   ("version", Version_value (_version self))].

Definition _release (self : t) : prog (result unit * t) :=
  leaving self
    (do_call (super_release (_filepath self) (_version self)) ;;
     _invalidate_cache self).

End WithLib.
End GraphMLDataset.

(* ================================================================== *)
(** ** The adapter contract

    The five classes share the interface of [AbstractDataset]: a
    constructor and [_describe], [_load], [_save], [_exists].  The
    constructors and [_describe] are put side by side here, so that a
    property of "every adapter" is one statement. *)

Inductive init_args : Type :=
| Bio_args (filepath : string)
    (load_args save_args credentials fs_args metadata : option dict)
| GraphML_args (filepath : string) (load_args save_args : option dict)
    (version : option Version) (credentials fs_args metadata : option dict)
| GBQTable_args (dataset table_name : string) (project : option string)
    (credentials : credentials_arg) (load_args save_args metadata : option dict)
| GBQQuery_args (sql project : option string) (credentials : credentials_arg)
    (load_args fs_args : option dict) (filepath : option string)
    (metadata : option dict)
| Cohere_args (credentials : dict) (kwargs : option dict).

Inductive dataset : Type :=
| Bio_ds (self : BioSequenceDataset.t)
| GraphML_ds (self : GraphMLDataset.t)
| GBQTable_ds (self : GBQTableDataset.t)
| GBQQuery_ds (self : GBQQueryDataset.t)
| Cohere_ds (self : CohereDataset.t).

(** The user-supplied [load_args] and [save_args], where the constructor
    has such a parameter. *)
Definition load_args_of (a : init_args) : option dict :=
  match a with
  | Bio_args _ load_args _ _ _ _ => load_args
  | GraphML_args _ load_args _ _ _ _ _ => load_args
  | GBQTable_args _ _ _ _ load_args _ _ => load_args
  | GBQQuery_args _ _ _ load_args _ _ _ => load_args
  | Cohere_args _ _ => None
  end.

Definition save_args_of (a : init_args) : option dict :=
  match a with
  | Bio_args _ _ save_args _ _ _ => save_args
  | GraphML_args _ _ save_args _ _ _ _ => save_args
  | GBQTable_args _ _ _ _ _ save_args _ => save_args
  | GBQQuery_args _ _ _ _ _ _ _ => None
  | Cohere_args _ _ => None
  end.

Definition takes_load_args (a : init_args) : bool :=
  match a with Cohere_args _ _ => false | _ => true end.

Definition takes_save_args (a : init_args) : bool :=
  match a with
  | Bio_args _ _ _ _ _ _ | GraphML_args _ _ _ _ _ _ _
  | GBQTable_args _ _ _ _ _ _ _ => true
  | _ => false
  end.

Definition is_query (a : init_args) : bool :=
  match a with GBQQuery_args _ _ _ _ _ _ _ => true | _ => false end.

(** The [sql] argument of the query adapter, and whether the constructor
    takes its [if sql:] branch. *)
Definition sql_of (a : init_args) : option string :=
  match a with GBQQuery_args sql _ _ _ _ _ _ => sql | _ => None end.

Definition sql_supplied (a : init_args) : bool := truthy_str (sql_of a).

(** The class attributes [DEFAULT_LOAD_ARGS] and [DEFAULT_SAVE_ARGS]. *)
Definition DEFAULT_LOAD_ARGS (a : init_args) : dict :=
  match a with
  | Bio_args _ _ _ _ _ _ => BioSequenceDataset.DEFAULT_LOAD_ARGS
  | GraphML_args _ _ _ _ _ _ _ => GraphMLDataset.DEFAULT_LOAD_ARGS
  | GBQTable_args _ _ _ _ _ _ _ => GBQTableDataset.DEFAULT_LOAD_ARGS
  | GBQQuery_args _ _ _ _ _ _ _ => GBQQueryDataset.DEFAULT_LOAD_ARGS
  | Cohere_args _ _ => []
  end.

Definition DEFAULT_SAVE_ARGS (a : init_args) : dict :=
  match a with
  | Bio_args _ _ _ _ _ _ => BioSequenceDataset.DEFAULT_SAVE_ARGS
  | GraphML_args _ _ _ _ _ _ _ => GraphMLDataset.DEFAULT_SAVE_ARGS
  | GBQTable_args _ _ _ _ _ _ _ => GBQTableDataset.DEFAULT_SAVE_ARGS
  | _ => []
  end.

(** The attributes [_load_args] and [_save_args] of an instance. *)
Definition merged_load_args (d : dataset) : dict :=
  match d with
  | Bio_ds self => BioSequenceDataset._load_args self
  | GraphML_ds self => GraphMLDataset._load_args self
  | GBQTable_ds self => GBQTableDataset._load_args self
  | GBQQuery_ds self => GBQQueryDataset._load_args self
  | Cohere_ds _ => []
  end.

Definition merged_save_args (d : dataset) : dict :=
  match d with
  | Bio_ds self => BioSequenceDataset._save_args self
  | GraphML_ds self => GraphMLDataset._save_args self
  | GBQTable_ds self => GBQTableDataset._save_args self
  | _ => []
  end.

(** The ['location'] a user-supplied option map asks for: [None] when no
    map is given or the map has no such key. *)
Definition user_location (args : option dict) : pyval :=
  match args with
  | Some u => get u "location"
  | None => PyNone
  end.

(** Whether an option map was given with a ['location'] key at all. *)
Definition location_key (args : option dict) : option pyval :=
  match args with
  | Some u => dict_get "location" u
  | None => None
  end.

(** Two argument lists of one constructor that agree on everything but
    the [credentials] argument. *)
Inductive differ_in_credentials : init_args -> init_args -> Prop :=
| dic_Bio filepath load_args save_args c c' fs_args metadata :
    differ_in_credentials
      (Bio_args filepath load_args save_args c fs_args metadata)
      (Bio_args filepath load_args save_args c' fs_args metadata)
| dic_GraphML filepath load_args save_args version c c' fs_args metadata :
    differ_in_credentials
      (GraphML_args filepath load_args save_args version c fs_args metadata)
      (GraphML_args filepath load_args save_args version c' fs_args metadata)
| dic_GBQTable dataset table_name project c c' load_args save_args metadata :
    differ_in_credentials
      (GBQTable_args dataset table_name project c load_args save_args metadata)
      (GBQTable_args dataset table_name project c' load_args save_args metadata)
| dic_GBQQuery sql project c c' load_args fs_args filepath metadata :
    differ_in_credentials
      (GBQQuery_args sql project c load_args fs_args filepath metadata)
      (GBQQuery_args sql project c' load_args fs_args filepath metadata)
| dic_Cohere c c' kwargs :
    differ_in_credentials (Cohere_args c kwargs) (Cohere_args c' kwargs).

Section Contract.
Context `{Lib}.

Definition construct (a : init_args) : E dataset :=
  match a with
  | Bio_args filepath load_args save_args credentials fs_args metadata =>
      self <- BioSequenceDataset.__init__ filepath load_args save_args
                credentials fs_args metadata ;;
      ret (Bio_ds self)
  | GraphML_args filepath load_args save_args version credentials fs_args
      metadata =>
      self <- GraphMLDataset.__init__ filepath load_args save_args version
                credentials fs_args metadata ;;
      ret (GraphML_ds self)
  | GBQTable_args dataset table_name project credentials load_args save_args
      metadata =>
      self <- GBQTableDataset.__init__ dataset table_name project credentials
                load_args save_args metadata ;;
      ret (GBQTable_ds self)
  | GBQQuery_args sql project credentials load_args fs_args filepath
      metadata =>
      self <- GBQQueryDataset.__init__ sql project credentials load_args
                fs_args filepath metadata ;;
      ret (GBQQuery_ds self)
  | Cohere_args credentials kwargs =>
      self <- CohereDataset.__init__ credentials kwargs ;;
      ret (Cohere_ds self)
  end.

Definition describe (d : dataset) : dict :=
  match d with
  | Bio_ds self => BioSequenceDataset._describe self
  | GraphML_ds self => GraphMLDataset._describe self
  | GBQTable_ds self => GBQTableDataset._describe self
  | GBQQuery_ds self => GBQQueryDataset._describe self
  | Cohere_ds self => CohereDataset._describe self
  end.

(** How [describe] shows an option map: as it is, or, for the query
    adapter, through [str]. *)
Definition shown (d : dataset) (m : dict) : pyval :=
  match d with
  | GBQQuery_ds _ => PyStr (str (PyDict m))
  | _ => PyDict m
  end.

End Contract.

(* ================================================================== *)
(** ** A concrete environment

    One instance of the helpers and two environments, for running the
    adapters on concrete arguments: a local path without protocol prefix,
    and collaborators that answer every call. *)

Module Local.

Definition lib : Lib :=
  {| get_protocol_and_path := fun filepath _ => Ok ("file", filepath);
     get_filepath_str := fun path _ => path;
     PurePosixPath := fun path => path;
     validate_on_forbidden_chars := fun _ => Ok tt;
     str := fun v =>
              match v with
              | PyStr s => s
              | PyNone => "None"
              | PyDict [] => "{}"
              | _ => "<object>"
              end |}.

(** Every call succeeds; new objects are numbered by a counter. *)
Definition fresh : handler nat :=
  fun X c =>
    match c in call X return nat -> result X * nat with
    | Credentials_new _ => fun n => (Ok (Credentials_at n), S n)
    | bigquery_Client _ _ _ => fun n => (Ok (Client_at n), S n)
    | get_table _ _ => fun n => (Ok tt, n)
    | read_gbq _ _ _ => fun n => (Ok (DataFrame_at n), S n)
    | to_gbq _ _ _ _ _ => fun n => (Ok tt, n)
    | fsspec_filesystem _ _ _ => fun n => (Ok (FileSystem_at n), S n)
    | fs_open _ _ _ => fun n => (Ok (File_at n), S n)
    | fs_exists _ _ => fun n => (Ok true, n)
    | fs_invalidate_cache _ _ => fun n => (Ok tt, n)
    | file_read _ => fun n => (Ok "SELECT 1", n)
    | file_exit _ => fun n => (Ok tt, n)
    | SeqIO_parse _ _ => fun n => (Ok [], n)
    | SeqIO_write sequences _ _ => fun n => (Ok (length sequences), n)
    | read_graphml _ _ => fun n => (Ok (Graph_at n), S n)
    | write_graphml _ _ _ => fun n => (Ok tt, n)
    | _get_load_path filepath _ => fun n => (Ok filepath, n)
    | _get_save_path filepath _ => fun n => (Ok filepath, n)
    | super_release _ _ => fun n => (Ok tt, n)
    | Cohere_new _ _ =>
        fun n => (Ok {| llm_id := n; user_agent := "langchain";
                        client := None; async_client := None |}, S n)
    | cohere_Client _ _ _ => fun n => (Ok (CohereClient_at n), S n)
    | cohere_AsyncClient _ _ _ => fun n => (Ok (CohereClient_at n), S n)
    end.

(** The same, but the table probed by [get_table] is not there. *)
Definition table_missing : handler nat :=
  fun X c =>
    match c in call X return nat -> result X * nat with
    | get_table _ _ => fun n => (Raise (NotFound "Not found: Table"), n)
    | c' => fresh c'
    end.

End Local.

(** A handler that never answers with an exception. *)
Definition obliging {W : Type} (h : handler W) : Prop :=
  forall (X : Type) (c : call X) (w : W), is_ok (fst (h X c w)) = true.

(** What a shallow override of [defaults] by an optional user map reads. *)
Definition overridden (defaults : dict) (user : option dict) (k : string)
    : option pyval :=
  match user with
  | Some u =>
      match dict_get k u with
      | Some v => Some v
      | None => dict_get k defaults
      end
  | None => dict_get k defaults
  end.

Definition wf_opt (user : option dict) : Prop :=
  match user with
  | Some u => dict_wf u
  | None => True
  end.

(* ================================================================== *)
(** ** Deprecated class names

    Each of the three dataset modules ends with a table of renamed
    classes and a module-level [__getattr__] over it. *)

Inductive class_ : Type :=
| BioSequenceDataset_class
| GraphMLDataset_class
| GBQTableDataset_class
| GBQQueryDataset_class.

(** [cls.__name__] *)
Definition __name__ (cls : class_) : string :=
  match cls with
  | BioSequenceDataset_class => "BioSequenceDataset"
  | GraphMLDataset_class => "GraphMLDataset"
  | GBQTableDataset_class => "GBQTableDataset"
  | GBQQueryDataset_class => "GBQQueryDataset"
  end.

(** A warning handed to [warnings.warn]: its category and its text. *)
Record Warning : Type := { category : string; message : string }.

(** [table[name]] for a table of classes; [None] is "name not in table". *)
Fixpoint class_of (name : string) (table : list (string * class_))
    : option class_ :=
  match table with
  | [] => None
  | (k, cls) :: rest => if String.eqb name k then Some cls else class_of name rest
  end.

Section ModuleGetattr.

(** [repr] of a string. *)
Variable repr : string -> string.
(** [warnings.warn] under the active filter: it returns, or it raises the
    warning as an exception. *)
Variable warn : Warning -> result unit.

(** The body shared by the three modules, for a module called
    [module_name] with the table [_DEPRECATED_CLASSES].  The warnings
    handed to [warnings.warn] come first, the outcome second. *)
Definition module___getattr__ (module_name : string)
    (_DEPRECATED_CLASSES : list (string * class_)) (name : string)
    : list Warning * result class_ :=
  match class_of name _DEPRECATED_CLASSES with
  | Some alias =>
      let w :=
        {| category := "KedroDeprecationWarning";
           message := repr name ++ " has been renamed to " ++
                      repr (__name__ alias) ++
                      ", and the alias will be removed in Kedro-Datasets 2.0.0" |} in
      match warn w with
      | Ok _ => ([w], Ok alias)
      | Raise e => ([w], Raise e)
      end
  | None =>
      ([], Raise (AttributeError
                    ("module " ++ repr module_name ++ " has no attribute " ++
                     repr name)))
  end.

End ModuleGetattr.

Module biosequence_dataset.
Definition _DEPRECATED_CLASSES : list (string * class_) :=
  [("BioSequenceDataSet", BioSequenceDataset_class)].
Definition __getattr__ repr warn (name : string) :=
  module___getattr__ repr warn
    "kedro_datasets.biosequence.biosequence_dataset" _DEPRECATED_CLASSES name.
End biosequence_dataset.

Module graphml_dataset.
Definition _DEPRECATED_CLASSES : list (string * class_) :=
  [("GraphMLDataSet", GraphMLDataset_class)].
Definition __getattr__ repr warn (name : string) :=
  module___getattr__ repr warn
    "kedro_datasets.networkx.graphml_dataset" _DEPRECATED_CLASSES name.
End graphml_dataset.

Module gbq_dataset.
Definition _DEPRECATED_CLASSES : list (string * class_) :=
  [("GBQTableDataSet", GBQTableDataset_class);
   ("GBQQueryDataSet", GBQQueryDataset_class)].
Definition __getattr__ repr warn (name : string) :=
  module___getattr__ repr warn
    "kedro_datasets.pandas.gbq_dataset" _DEPRECATED_CLASSES name.
End gbq_dataset.





(** The helpers with [validate_on_forbidden_chars] as [kedro.io.core]
    documents it: no white-space and no semicolon in a value. *)
Module Strict.

Fixpoint has_char (c : Ascii.ascii) (s : string) : bool :=
  match s with
  | EmptyString => false
  | String c' s' => if Ascii.eqb c c' then true else has_char c s'
  end.

Definition forbidden (v : pyval) : bool :=
  match v with
  | PyStr s =>
      has_char (Ascii.ascii_of_nat 32) s || has_char (Ascii.ascii_of_nat 59) s
  | _ => false
  end.

Fixpoint check (kw : dict) : result unit :=
  match kw with
  | [] => Ok tt
  | (key, value) :: rest =>
      if forbidden value
      then Raise (DatasetError
                    ("Neither white-space nor semicolon are allowed in '" ++
                     key ++ "'."))
      else check rest
  end.

Definition lib : Lib :=
  {| get_protocol_and_path := @get_protocol_and_path Local.lib;
     get_filepath_str := @get_filepath_str Local.lib;
     PurePosixPath := @PurePosixPath Local.lib;
     validate_on_forbidden_chars := check;
     str := @str Local.lib |}.

End Strict.

(** The calls that only build a client-side object: credentials, a
    BigQuery client, a filesystem. *)
Definition builds_object (e : event) : bool :=
  match e with
  | existT _ _ (Credentials_new _) => true
  | existT _ _ (bigquery_Client _ _ _) => true
  | existT _ _ (fsspec_filesystem _ _ _) => true
  | _ => false
  end.

(* ================================================================== *)
(** ** Facts about dictionaries *)

Section DictFacts.

Lemma dict_get_set (k k' : string) (v : pyval) (d : dict) :
  dict_get k (dict_set k' v d) =
  if String.eqb k k' then Some v else dict_get k d.
Proof.
  induction d as [|[k0 v0] d IH]; simpl.
  - reflexivity.
  - destruct (String.eqb k' k0) eqn:E'; simpl.
    + apply String.eqb_eq in E'; subst k0.
      destruct (String.eqb k k'); reflexivity.
    + destruct (String.eqb k k0) eqn:E0.
      * apply String.eqb_eq in E0; subst k0.
        rewrite String.eqb_sym in E'. rewrite E'. reflexivity.
      * exact IH.
Qed.

Lemma dict_get_app (k : string) (a b : dict) :
  dict_get k (a ++ b)%list =
  match dict_get k a with Some v => Some v | None => dict_get k b end.
Proof.
  induction a as [|[k0 v0] a IH]; simpl; [reflexivity|].
  destruct (String.eqb k k0); [reflexivity | exact IH].
Qed.

(** [update] assigns in order, so the last binding of a key in [u] wins. *)
Lemma dict_get_update_rev (k : string) (u d : dict) :
  dict_get k (update d u) =
  match dict_get k (rev u) with
  | Some v => Some v
  | None => dict_get k d
  end.
Proof.
  unfold update. revert d.
  induction u as [|[k0 v0] u IH]; intros d; simpl; [reflexivity|].
  rewrite IH, dict_get_app, dict_get_set. simpl.
  destruct (dict_get k (rev u)); [reflexivity|].
  destruct (String.eqb k k0); reflexivity.
Qed.

Lemma dict_get_None (k : string) (d : dict) :
  dict_get k d = None <-> ~ In k (keys d).
Proof.
  induction d as [|[k0 v0] d IH]; simpl.
  - split; [intros _ [] | reflexivity].
  - destruct (String.eqb k k0) eqn:E.
    + apply String.eqb_eq in E; subst. split; [discriminate|].
      intros Hn. exfalso. apply Hn. now left.
    + apply String.eqb_neq in E. rewrite IH. split.
      * intros Hn [Heq | Hin]; [congruence | contradiction].
      * intros Hn Hin. apply Hn. now right.
Qed.

Lemma dict_get_In (k : string) (v : pyval) (d : dict) :
  dict_wf d -> (dict_get k d = Some v <-> In (k, v) d).
Proof.
  unfold dict_wf.
  induction d as [|[k0 v0] d IH]; simpl; intros Hwf.
  - split; [discriminate | intros []].
  - inversion Hwf as [|? ? Hnotin Hwf']; subst.
    destruct (String.eqb k k0) eqn:E.
    + apply String.eqb_eq in E; subst k0. split.
      * intros [= ->]. now left.
      * intros [[= ->] | Hin]; [reflexivity|].
        exfalso. apply Hnotin. apply (in_map fst) in Hin. exact Hin.
    + apply String.eqb_neq in E. rewrite (IH Hwf'). split.
      * intros Hin. now right.
      * intros [[= -> _] | Hin]; [congruence | exact Hin].
Qed.

Lemma dict_wf_rev (d : dict) : dict_wf d -> dict_wf (rev d).
Proof.
  unfold dict_wf, keys. intros Hwf. rewrite map_rev.
  apply NoDup_rev. exact Hwf.
Qed.

Lemma dict_get_rev (k : string) (d : dict) :
  dict_wf d -> dict_get k (rev d) = dict_get k d.
Proof.
  intros Hwf.
  destruct (dict_get k d) as [v|] eqn:E.
  - apply (dict_get_In _ _ (dict_wf_rev Hwf)).
    apply in_rev. rewrite rev_involutive.
    apply (dict_get_In _ _ Hwf). exact E.
  - apply dict_get_None. apply dict_get_None in E.
    unfold keys in *. rewrite map_rev. intros Hin. apply E.
    apply in_rev. exact Hin.
Qed.

(** Shallow override: a key of [u] reads as in [u], any other as in [d]. *)
Lemma dict_get_update (k : string) (u d : dict) :
  dict_wf u ->
  dict_get k (update d u) =
  match dict_get k u with
  | Some v => Some v
  | None => dict_get k d
  end.
Proof.
  intros Hwf. rewrite dict_get_update_rev, (dict_get_rev _ Hwf).
  reflexivity.
Qed.

Lemma keys_set (k : string) (v : pyval) (d : dict) :
  keys (dict_set k v d) =
  if has_key k d then keys d else (keys d ++ [k])%list.
Proof.
  induction d as [|[k0 v0] d IH]; simpl; [reflexivity|].
  destruct (String.eqb k k0) eqn:E; simpl; [reflexivity|].
  rewrite IH. destruct (has_key k d); reflexivity.
Qed.

Lemma has_key_get (k : string) (d : dict) :
  has_key k d = match dict_get k d with Some _ => true | None => false end.
Proof.
  induction d as [|[k0 v0] d IH]; simpl; [reflexivity|].
  destruct (String.eqb k k0); [reflexivity | exact IH].
Qed.

Lemma dict_wf_set (k : string) (v : pyval) (d : dict) :
  dict_wf d -> dict_wf (dict_set k v d).
Proof.
  unfold dict_wf. intros Hwf. rewrite keys_set.
  destruct (has_key k d) eqn:E; [exact Hwf|].
  rewrite has_key_get in E.
  destruct (dict_get k d) eqn:G; [discriminate|].
  apply dict_get_None in G.
  apply NoDup_rev in Hwf.
  rewrite <- (rev_involutive (keys d ++ [k])%list).
  apply NoDup_rev. rewrite rev_app_distr. simpl.
  constructor; [|exact Hwf].
  intros Hin. apply G. apply in_rev. exact Hin.
Qed.

Lemma dict_wf_update (u d : dict) : dict_wf d -> dict_wf (update d u).
Proof.
  unfold update. revert d.
  induction u as [|[k v] u IH]; intros d Hwf; simpl; [exact Hwf|].
  apply IH. apply dict_wf_set. exact Hwf.
Qed.

Lemma dict_get_remove_other (k k' : string) (d : dict) :
  k <> k' -> dict_get k (dict_remove k' d) = dict_get k d.
Proof.
  intros Hne.
  induction d as [|[k0 v0] d IH]; simpl; [reflexivity|].
  destruct (String.eqb k' k0) eqn:E'.
  - apply String.eqb_eq in E'; subst k0.
    apply String.eqb_neq in Hne. rewrite Hne. reflexivity.
  - simpl. destruct (String.eqb k k0); [reflexivity | exact IH].
Qed.

Lemma dict_get_remove_same (k : string) (d : dict) :
  dict_wf d -> dict_get k (dict_remove k d) = None.
Proof.
  unfold dict_wf.
  induction d as [|[k0 v0] d IH]; simpl; intros Hwf; [reflexivity|].
  inversion Hwf as [|? ? Hnotin Hwf']; subst.
  destruct (String.eqb k k0) eqn:E.
  - apply String.eqb_eq in E; subst k0.
    apply dict_get_None. exact Hnotin.
  - simpl. rewrite E. apply IH. exact Hwf'.
Qed.

End DictFacts.

Lemma merge_args_get (defaults : dict) (user : option dict) (k : string) :
  wf_opt user ->
  dict_get k (merge_args defaults user) = overridden defaults user k.
Proof.
  destruct user as [u|]; simpl; intros Hwf.
  - apply dict_get_update. exact Hwf.
  - reflexivity.
Qed.

Lemma merge_args_wf (defaults : dict) (user : option dict) :
  dict_wf defaults -> dict_wf (merge_args defaults user).
Proof.
  destruct user as [u|]; simpl; intros Hwf.
  - apply dict_wf_update. exact Hwf.
  - exact Hwf.
Qed.

(* ================================================================== *)
(** ** Facts about programs *)

Section RunFacts.
Variable W : Type.
Variable h : handler W.
Arguments h : clear implicits.

Lemma run_bind {A B} (m : E A) (f : A -> E B) (w : W) :
  run h (bind m f) w =
  let '(r, w1, t1) := run h m w in
  match r with
  | Ok a => let '(r2, w2, t2) := run h (f a) w1 in (r2, w2, (t1 ++ t2)%list)
  | Raise e => (Raise e, w1, t1)
  end.
Proof.
  revert w. induction m as [[a|e]|X c k IH]; intros w; simpl.
  - destruct (run h (f a) w) as [[r2 w2] t2]. reflexivity.
  - reflexivity.
  - destruct (h X c w) as [x w1]. rewrite IH.
    destruct (run h (k x) w1) as [[[a|e] w2] t]; simpl.
    + destruct (run h (f a) w2) as [[r2 w3] t2]. reflexivity.
    + reflexivity.
Qed.

Lemma run_leaving {S A} (self : S) (m : E A) (w : W) :
  run h (leaving self m) w =
  let '(r, w1, t) := run h m w in ((r, self), w1, t).
Proof.
  revert w. induction m as [r|X c k IH]; intros w; simpl.
  - reflexivity.
  - destruct (h X c w) as [x w1]. rewrite IH.
    destruct (run h (k x) w1) as [[r w2] t]. reflexivity.
Qed.

Lemma run_finally {A} (m : E A) (cleanup : E unit) (w : W) :
  run h (finally m cleanup) w =
  let '(r, w1, t1) := run h m w in
  let '(c, w2, t2) := run h cleanup w1 in
  (match c with Ok _ => r | Raise e => Raise e end, w2, (t1 ++ t2)%list).
Proof.
  revert w. induction m as [r|X c k IH]; intros w; simpl.
  - rewrite run_bind.
    destruct (run h cleanup w) as [[[u|e] w2] t2]; simpl;
      rewrite ?app_nil_r; reflexivity.
  - destruct (h X c w) as [x w1]. rewrite IH.
    destruct (run h (k x) w1) as [[r w2] t].
    destruct (run h cleanup w2) as [[c' w3] t3]. reflexivity.
Qed.

Lemma run_try_except {A} (m : E A) (handle : exn -> E A) (w : W) :
  run h (try_except m handle) w =
  let '(r, w1, t1) := run h m w in
  match r with
  | Ok a => (Ok a, w1, t1)
  | Raise e => let '(r2, w2, t2) := run h (handle e) w1 in
               (r2, w2, (t1 ++ t2)%list)
  end.
Proof.
  revert w. induction m as [[a|e]|X c k IH]; intros w; simpl.
  - reflexivity.
  - destruct (run h (handle e) w) as [[r2 w2] t2]. reflexivity.
  - destruct (h X c w) as [x w1]. rewrite IH.
    destruct (run h (k x) w1) as [[[a|e] w2] t]; simpl.
    + reflexivity.
    + destruct (run h (handle e) w2) as [[r2 w3] t2]. reflexivity.
Qed.

Lemma run_do_call {X} (c : call X) (w : W) :
  run h (do_call c) w = (fst (h X c w), snd (h X c w), [ev c]).
Proof.
  simpl. destruct (h X c w) as [x w1]. reflexivity.
Qed.

(** A bind that returns went through both halves. *)
Lemma outcome_bind_Ok {A B} (m : E A) (f : A -> E B) (w : W) (b : B) :
  outcome h (bind m f) w = Ok b ->
  exists a, outcome h m w = Ok a /\ outcome h (f a) (final h m w) = Ok b.
Proof.
  unfold outcome, final. rewrite run_bind.
  destruct (run h m w) as [[[a|e] w1] t1]; simpl.
  - destruct (run h (f a) w1) as [[r2 w2] t2] eqn:E2; simpl.
    intros ->. exists a. rewrite E2. split; reflexivity.
  - discriminate.
Qed.

Lemma outcome_bind_of_Ok {A B} (m : E A) (f : A -> E B) (w : W) (a : A) :
  outcome h m w = Ok a ->
  outcome h (bind m f) w = outcome h (f a) (final h m w).
Proof.
  unfold outcome, final. rewrite run_bind.
  destruct (run h m w) as [[r w1] t1]; simpl. intros ->.
  destruct (run h (f a) w1) as [[r2 w2] t2]. reflexivity.
Qed.

Lemma outcome_Call {X R} (c : call X) (k : result X -> prog R) (w : W) :
  outcome h (Call c k) w = outcome h (k (fst (h X c w))) (snd (h X c w)).
Proof.
  unfold outcome. simpl. destruct (h X c w) as [x w1]. simpl.
  destruct (run h (k x) w1) as [[r w2] t]. reflexivity.
Qed.

Lemma outcome_do_call {X} (c : call X) (w : W) :
  outcome h (do_call c) w = fst (h X c w).
Proof. unfold outcome. rewrite run_do_call. reflexivity. Qed.

Lemma obliging_call {X} (c : call X) (w : W) :
  obliging h -> exists x, outcome h (do_call c) w = Ok x.
Proof.
  intros Hob. rewrite outcome_do_call. specialize (Hob X c w).
  destruct (fst (h X c w)) as [x|e]; [now exists x | discriminate].
Qed.

Lemma coerce_credentials_obliging (credentials : credentials_arg) (w : W) :
  obliging h -> exists c, outcome h (coerce_credentials credentials) w = Ok c.
Proof.
  intros Hob. destruct credentials as [|d|c]; simpl.
  - exists None. reflexivity.
  - rewrite outcome_Call. specialize (Hob _ (Credentials_new d) w).
    destruct (fst (h _ (Credentials_new d) w)) as [x|e];
      [|discriminate Hob].
    exists (Some x). reflexivity.
  - exists (Some c). reflexivity.
Qed.

End RunFacts.

(* ================================================================== *)
(** ** What a successful construction leaves in the instance *)

Section InitFacts.
Context {L : Lib}.
Variable W : Type.
Variable h : handler W.
Arguments h : clear implicits.

(** One call further into a program that is known to return. *)
Ltac called H x :=
  rewrite outcome_Call in H;
  match type of H with
  | context [fst (h ?X ?c ?w)] =>
      destruct (fst (h X c w)) as [x|?]; [|discriminate H]
  end;
  simpl in H.

Lemma outcome_ret {A} (a b : A) (w : W) :
  outcome h (ret a) w = Ok b -> a = b.
Proof. unfold outcome; simpl. congruence. Qed.

Lemma Bio_init_Ok filepath load_args save_args credentials fs_args metadata
    (w : W) (self : BioSequenceDataset.t) :
  outcome h (BioSequenceDataset.__init__ filepath load_args save_args
               credentials fs_args metadata) w = Ok self ->
  exists protocol path,
    get_protocol_and_path filepath None = Ok (protocol, path) /\
    BioSequenceDataset._filepath self = PurePosixPath path /\
    BioSequenceDataset._protocol self = protocol /\
    BioSequenceDataset._load_args self =
      merge_args BioSequenceDataset.DEFAULT_LOAD_ARGS load_args /\
    BioSequenceDataset._save_args self =
      merge_args BioSequenceDataset.DEFAULT_SAVE_ARGS save_args.
Proof.
  unfold BioSequenceDataset.__init__, pop, lift. intros Hok.
  destruct (get_protocol_and_path filepath None) as [[protocol path]|e];
    [|discriminate Hok].
  simpl in Hok. called Hok fs.
  destruct (attr_setdefault _ "mode" (PyStr "r")) as [ol|e];
    [|discriminate Hok].
  destruct (attr_setdefault _ "mode" (PyStr "w")) as [os|e];
    [|discriminate Hok].
  apply outcome_ret in Hok. subst self. simpl.
  exists protocol, path. repeat split; reflexivity.
Qed.

Lemma GraphML_init_Ok filepath load_args save_args version credentials
    fs_args metadata (w : W) (self : GraphMLDataset.t) :
  outcome h (GraphMLDataset.__init__ filepath load_args save_args version
               credentials fs_args metadata) w = Ok self ->
  exists protocol path,
    get_protocol_and_path filepath version = Ok (protocol, path) /\
    GraphMLDataset._filepath self = PurePosixPath path /\
    GraphMLDataset._protocol self = protocol /\
    GraphMLDataset._version self = version /\
    GraphMLDataset._load_args self =
      merge_args GraphMLDataset.DEFAULT_LOAD_ARGS load_args /\
    GraphMLDataset._save_args self =
      merge_args GraphMLDataset.DEFAULT_SAVE_ARGS save_args.
Proof.
  unfold GraphMLDataset.__init__, pop, lift. intros Hok.
  destruct (get_protocol_and_path filepath version) as [[protocol path]|e];
    [|discriminate Hok].
  simpl in Hok. called Hok fs.
  destruct (attr_setdefault _ "mode" (PyStr "rb")) as [ol|e];
    [|discriminate Hok].
  destruct (attr_setdefault _ "mode" (PyStr "wb")) as [os|e];
    [|discriminate Hok].
  apply outcome_ret in Hok. subst self. simpl.
  exists protocol, path. repeat split; reflexivity.
Qed.

Lemma coerce_credentials_Ok {A} (credentials : credentials_arg)
    (f : option Credentials -> E A) (w : W) (a : A) :
  outcome h (bind (coerce_credentials credentials) f) w = Ok a ->
  exists c w', outcome h (f c) w' = Ok a.
Proof.
  destruct credentials as [|d|c]; simpl; intros Hok.
  - exists None, w. exact Hok.
  - called Hok c. eexists; eexists; exact Hok.
  - exists (Some c), w. exact Hok.
Qed.

Lemma GBQTable_init_Ok dataset table_name project credentials load_args
    save_args metadata (w : W) (self : GBQTableDataset.t) :
  outcome h (GBQTableDataset.__init__ dataset table_name project credentials
               load_args save_args metadata) w = Ok self ->
  GBQTableDataset._dataset self = dataset /\
  GBQTableDataset._table_name self = table_name /\
  GBQTableDataset._load_args self =
    merge_args GBQTableDataset.DEFAULT_LOAD_ARGS load_args /\
  GBQTableDataset._save_args self =
    merge_args GBQTableDataset.DEFAULT_SAVE_ARGS save_args.
Proof.
  unfold GBQTableDataset.__init__, GBQTableDataset._validate_location, lift.
  intros Hok.
  destruct (py_neb _ _); [discriminate Hok|]. simpl in Hok.
  destruct (validate_on_forbidden_chars _) as [u|e]; [|discriminate Hok].
  simpl in Hok.
  apply coerce_credentials_Ok in Hok. destruct Hok as (c & w' & Hok).
  simpl in Hok. called Hok bq.
  apply outcome_ret in Hok. subst self. simpl.
  repeat split; reflexivity.
Qed.

Lemma GBQQuery_init_Ok sql project credentials load_args fs_args filepath
    metadata (w : W) (self : GBQQueryDataset.t) :
  outcome h (GBQQueryDataset.__init__ sql project credentials load_args
               fs_args filepath metadata) w = Ok self ->
  let merged := merge_args GBQQueryDataset.DEFAULT_LOAD_ARGS load_args in
  (truthy_str sql = true /\ truthy_str filepath = false /\
   GBQQueryDataset._load_args self = dict_set "query" (opt_str sql) merged /\
   GBQQueryDataset._filepath self = None)
  \/
  (truthy_str sql = false /\ truthy_str filepath = true /\
   GBQQueryDataset._load_args self = merged /\
   exists protocol path,
     get_protocol_and_path (str (opt_str filepath)) None
       = Ok (protocol, path) /\
     GBQQueryDataset._filepath self = Some path).
Proof.
  intros Hok merged. unfold GBQQueryDataset.__init__ in Hok.
  destruct (truthy_str sql) eqn:Es, (truthy_str filepath) eqn:Ef;
    cbn [andb orb negb] in Hok; try discriminate Hok.
  - left. apply coerce_credentials_Ok in Hok. destruct Hok as (c & w' & Hok).
    simpl in Hok. called Hok bq.
    apply outcome_ret in Hok. subst self. simpl.
    repeat split; reflexivity.
  - right. apply coerce_credentials_Ok in Hok.
    destruct Hok as (c & w' & Hok).
    unfold pop, lift in Hok. simpl in Hok. called Hok bq.
    destruct (get_protocol_and_path (str (opt_str filepath)) None)
      as [[protocol path]|e]; [|discriminate Hok].
    simpl in Hok. called Hok fs.
    apply outcome_ret in Hok. subst self. simpl.
    repeat split; try reflexivity.
    exists protocol, path. split; reflexivity.
Qed.

Lemma Cohere_init_Ok credentials kwargs (w : W) (self : CohereDataset.t) :
  outcome h (CohereDataset.__init__ credentials kwargs) w = Ok self ->
  CohereDataset.kwargs self = or_empty kwargs.
Proof.
  unfold CohereDataset.__init__, lift, subscript. intros Hok.
  destruct (dict_get "cohere_api_url" credentials); [|discriminate Hok].
  destruct (dict_get "cohere_api_key" credentials); [|discriminate Hok].
  simpl in Hok. apply outcome_ret in Hok. subst self. reflexivity.
Qed.

End InitFacts.

(* ================================================================== *)
(** ** Merged options (C1) *)

Lemma default_args_wf (a : init_args) :
  dict_wf (DEFAULT_LOAD_ARGS a) /\ dict_wf (DEFAULT_SAVE_ARGS a).
Proof.
  destruct a; split; simpl; unfold dict_wf; simpl;
    repeat constructor; intros [].
Qed.

(** C1, as the code has it.  After a successful construction the stored
    load and save maps are the adapter's defaults shallow-overridden by
    the user's maps: a user key reads the user's value, any other key its
    default.  This holds for every key of every adapter with one
    exception: when GBQQueryDataset is given a non-empty [sql], the key
    ["query"] of its load map reads that [sql].  [describe()] shows both
    maps as they are stored for BioSequenceDataset, GraphMLDataset and
    GBQTableDataset; for GBQQueryDataset it shows the load map without
    ["query"] under ["load_args"] and the value of ["query"] (or [None])
    under ["sql"], both rendered by [str]. *)
Theorem C1_merged_options (L : Lib) (W : Type) (h : handler W) (w : W)
    (a : init_args) (d : dataset) :
  wf_opt (load_args_of a) ->
  wf_opt (save_args_of a) ->
  outcome h (construct a) w = Ok d ->
  (forall k, (sql_supplied a = true -> k <> "query") ->
     dict_get k (merged_load_args d) =
     overridden (DEFAULT_LOAD_ARGS a) (load_args_of a) k) /\
  (sql_supplied a = true ->
     dict_get "query" (merged_load_args d) = Some (opt_str (sql_of a))) /\
  (forall k,
     dict_get k (merged_save_args d) =
     overridden (DEFAULT_SAVE_ARGS a) (save_args_of a) k) /\
  (takes_load_args a = true ->
     dict_get "load_args" (describe d) =
     Some (shown d (if is_query a
                    then dict_remove "query" (merged_load_args d)
                    else merged_load_args d))) /\
  (takes_save_args a = true ->
     dict_get "save_args" (describe d) = Some (PyDict (merged_save_args d))) /\
  (is_query a = true ->
     (forall k, dict_get k (dict_remove "query" (merged_load_args d)) =
                if String.eqb k "query" then None
                else dict_get k (merged_load_args d)) /\
     dict_get "sql" (describe d) =
     Some (PyStr (str (get (merged_load_args d) "query")))).
Proof.
  intros Hl Hs Hok.
  destruct a; unfold sql_supplied; simpl in Hok; apply outcome_bind_Ok in Hok;
    destruct Hok as (self & Hinit & Hret); apply outcome_ret in Hret;
    subst d; simpl in *.
  - apply Bio_init_Ok in Hinit.
    destruct Hinit as (protocol & path & _ & _ & _ & Hla & Hsa).
    rewrite Hla, Hsa.
    repeat split; intros; try discriminate; try reflexivity;
      now apply merge_args_get.
  - apply GraphML_init_Ok in Hinit.
    destruct Hinit as (protocol & path & _ & _ & _ & _ & Hla & Hsa).
    rewrite Hla, Hsa.
    repeat split; intros; try discriminate; try reflexivity;
      now apply merge_args_get.
  - apply GBQTable_init_Ok in Hinit.
    destruct Hinit as (_ & _ & Hla & Hsa).
    rewrite Hla, Hsa.
    repeat split; intros; try discriminate; try reflexivity;
      now apply merge_args_get.
  - apply GBQQuery_init_Ok in Hinit.
    assert (Hwf : dict_wf (GBQQueryDataset._load_args self)).
    { destruct Hinit as [(_ & _ & Hla & _) | (_ & _ & Hla & _)]; rewrite Hla.
      - apply dict_wf_set, merge_args_wf. constructor.
      - apply merge_args_wf. constructor. }
    split; [|split; [|split; [|split; [|split]]]]; intros.
    + destruct Hinit as [(Hsql & _ & Hla & _) | (_ & _ & Hla & _)];
        rewrite Hla.
      * rewrite dict_get_set.
        destruct (String.eqb k "query") eqn:E.
        -- apply String.eqb_eq in E. exfalso. now apply H.
        -- now apply merge_args_get.
      * now apply merge_args_get.
    + destruct Hinit as [(_ & _ & Hla & _) | (Hno & _)]; [|congruence].
      rewrite Hla, dict_get_set. reflexivity.
    + reflexivity.
    + unfold GBQQueryDataset._describe, pop, deepcopy. reflexivity.
    + discriminate.
    + split.
      * intros k. destruct (String.eqb k "query") eqn:E.
        -- apply String.eqb_eq in E. subst k.
           now apply dict_get_remove_same.
        -- apply String.eqb_neq in E. now apply dict_get_remove_other.
      * unfold GBQQueryDataset._describe, pop, deepcopy, get. reflexivity.
  - repeat split; intros; try discriminate; reflexivity.
Qed.

(** At a table adapter given [load_args = {"reauth": True}] and
    [save_args = {"chunk_size": 100}], the default [progress_bar] stays. *)
Lemma C1_merged_options_witness :
  let a := GBQTable_args "dataset" "table_name" None CredNone
             (Some [("reauth", PyBool true)])
             (Some [("chunk_size", PyInt 100)]) None in
  exists d,
    outcome Local.fresh (@construct Local.lib a) 0 = Ok d /\
    dict_get "progress_bar" (merged_save_args d) = Some (PyBool false) /\
    dict_get "chunk_size" (merged_save_args d) = Some (PyInt 100) /\
    dict_get "reauth" (merged_load_args d) = Some (PyBool true).
Proof.
  intros a. eexists. split; [reflexivity|].
  assert (Hl : wf_opt (load_args_of a))
    by (simpl; unfold dict_wf; simpl; repeat constructor; intros []).
  assert (Hs : wf_opt (save_args_of a))
    by (simpl; unfold dict_wf; simpl; repeat constructor; intros []).
  destruct (@C1_merged_options Local.lib nat Local.fresh 0 a _ Hl Hs eq_refl)
    as (Hload & _ & Hsave & _).
  rewrite !Hsave, (Hload "reauth"); [|discriminate].
  repeat split; reflexivity.
Defined.

(** The claim as stated fails for the query adapter: with
    [sql = "SELECT 1"] and [load_args = {"query": "SELECT 2"}] the stored
    map reads ["query"] as the [sql] argument, not as the user's value. *)
Lemma C1_query_key_overwritten :
  ~ (forall (L : Lib) (W : Type) (h : handler W) (w : W)
            (a : init_args) (d : dataset),
       wf_opt (load_args_of a) ->
       wf_opt (save_args_of a) ->
       outcome h (construct a) w = Ok d ->
       forall k, dict_get k (merged_load_args d) =
                 overridden (DEFAULT_LOAD_ARGS a) (load_args_of a) k).
Proof.
  intros Hclaim.
  pose (a := GBQQuery_args (Some "SELECT 1") None CredNone
               (Some [("query", PyStr "SELECT 2")]) None None None).
  assert (Hl : wf_opt (load_args_of a))
    by (simpl; unfold dict_wf; simpl; repeat constructor; intros []).
  specialize (Hclaim Local.lib nat Local.fresh 0 a _ Hl I eq_refl "query").
  vm_compute in Hclaim. discriminate Hclaim.
Qed.

(* ================================================================== *)
(** ** Option maps at call time (C2) *)

(** C2 at [GBQTableDataset._load]: on an instance whose load map has no
    ["query"], the first [load()] writes the generated statement into the
    stored map, whatever the environment answers, so [describe()] is not
    the same before and after the call. *)
Theorem C2_table_load_rewrites_load_args (W : Type)
    (h : handler W) (w : W) (self : GBQTableDataset.t) :
  dict_get "query" (GBQTableDataset._load_args self) = None ->
  let self' := snd (outcome h (GBQTableDataset._load self) w) in
  dict_get "query" (GBQTableDataset._load_args self') =
    Some (PyStr ("select * from " ++ GBQTableDataset._dataset self ++ "." ++
                 GBQTableDataset._table_name self)) /\
  GBQTableDataset._describe self' <> GBQTableDataset._describe self.
Proof.
  intros Hnone self'.
  assert (Hself' : self' =
    GBQTableDataset.with_load_args self
      (setdefault (GBQTableDataset._load_args self) "query"
         (PyStr ("select * from " ++ GBQTableDataset._dataset self ++ "." ++
                 GBQTableDataset._table_name self)))).
  { unfold self', outcome, GBQTableDataset._load.
    rewrite run_leaving.
    destruct (run h _ w) as [[r w1] t]. reflexivity. }
  assert (Hq : dict_get "query" (GBQTableDataset._load_args self') =
    Some (PyStr ("select * from " ++ GBQTableDataset._dataset self ++ "." ++
                 GBQTableDataset._table_name self))).
  { rewrite Hself'. simpl. unfold setdefault.
    rewrite has_key_get, Hnone, dict_get_set. reflexivity. }
  split; [exact Hq|].
  intros Heq. unfold GBQTableDataset._describe in Heq.
  injection Heq as _ _ Hargs. rewrite Hargs, Hnone in Hq. discriminate Hq.
Qed.

(** The instance of the class docstring,
    [GBQTableDataset("dataset", "table_name", project="my-project")]. *)
Lemma C2_table_load_rewrites_load_args_witness :
  let self :=
    {| GBQTableDataset._load_args := [];
       GBQTableDataset._save_args := [("progress_bar", PyBool false)];
       GBQTableDataset._dataset := "dataset";
       GBQTableDataset._table_name := "table_name";
       GBQTableDataset._project_id := Some "my-project";
       GBQTableDataset._credentials := None;
       GBQTableDataset._client := Client_at 0;
       GBQTableDataset.metadata := None |} in
  let self' :=
    snd (outcome Local.fresh (GBQTableDataset._load self) 1) in
  GBQTableDataset._describe self' <> GBQTableDataset._describe self.
Proof.
  intros self self'.
  exact (proj2 (@C2_table_load_rewrites_load_args nat Local.fresh 1
                  self eq_refl)).
Defined.

(* ================================================================== *)
(** ** Read-only adapters (C3) *)

(** C3: [_save] of CohereDataset and of GBQQueryDataset raises
    [DatasetError] for every instance and every argument, makes no call
    to any collaborator, and leaves the instance and the environment as
    they were. *)
Theorem C3_read_only_save (W : Type) (h : handler W) (w : W) :
  (forall (self : CohereDataset.t) (data : pyval),
     run h (CohereDataset._save self data) w =
     ((Raise (DatasetError "CohereDataset is a read only data set type"),
       self), w, [])) /\
  (forall (self : GBQQueryDataset.t) (data : pyval),
     run h (GBQQueryDataset._save self data) w =
     ((Raise (DatasetError "'save' is not supported on GBQQueryDataset"),
       self), w, [])).
Proof.
  split; intros self data; reflexivity.
Qed.

(* ================================================================== *)
(** ** Locations of the table adapter (C5) *)

Lemma merged_location (defaults : dict) (user : option dict) :
  wf_opt user ->
  dict_get "location" defaults = None ->
  get (merge_args defaults user) "location" = user_location user.
Proof.
  intros Hwf Hd. unfold get. rewrite (merge_args_get _ _ _ Hwf).
  destruct user as [u|]; simpl.
  - unfold get. destruct (dict_get "location" u); [reflexivity|].
    rewrite Hd. reflexivity.
  - rewrite Hd. reflexivity.
Qed.

(** C5, as the code has it.  When [save_args.get("location")] and
    [load_args.get("location")] differ under Python's [!=], an absent key
    reading as [None], the constructor raises [DatasetError] at once: no
    collaborator is called, so no BigQuery client is created. *)
Theorem C5_location_mismatch (L : Lib) (W : Type) (h : handler W) (w : W)
    (dataset table_name : string) (project : option string)
    (credentials : credentials_arg)
    (load_args save_args metadata : option dict) :
  wf_opt load_args ->
  wf_opt save_args ->
  py_neb (user_location save_args) (user_location load_args) = true ->
  run h (GBQTableDataset.__init__ dataset table_name project credentials
           load_args save_args metadata) w =
  (Raise (DatasetError GBQTableDataset.location_message), w, []).
Proof.
  intros Hl Hs Hne.
  unfold GBQTableDataset.__init__, GBQTableDataset._validate_location.
  rewrite (merged_location _ _ Hs), (merged_location _ _ Hl), Hne;
    reflexivity.
Qed.

(** The scenario of the specification: [{"location": "US"}] for load and
    [{"location": "EU"}] for save. *)
Lemma C5_location_mismatch_witness :
  run Local.fresh
    (@GBQTableDataset.__init__ Local.lib "dataset" "table_name" None CredNone
       (Some [("location", PyStr "US")]) (Some [("location", PyStr "EU")])
       None) 0 =
  (Raise (DatasetError GBQTableDataset.location_message), 0, []).
Proof.
  apply (@C5_location_mismatch Local.lib nat Local.fresh 0).
  - simpl. unfold dict_wf. simpl. repeat constructor. intros [].
  - simpl. unfold dict_wf. simpl. repeat constructor. intros [].
  - reflexivity.
Defined.

(** The claim as stated counts "one present, the other absent" as a
    mismatch.  With [load_args = {"location": None}] and no [save_args]
    the key is present on one side only, yet both sides read [None]: the
    constructor does not raise and goes on to create the client. *)
Lemma C5_present_None_is_absent :
  ~ (forall (L : Lib) (W : Type) (h : handler W) (w : W)
            (dataset table_name : string) (project : option string)
            (credentials : credentials_arg)
            (load_args save_args metadata : option dict),
       wf_opt load_args ->
       wf_opt save_args ->
       location_key load_args <> location_key save_args ->
       exists msg,
         run h (GBQTableDataset.__init__ dataset table_name project
                  credentials load_args save_args metadata) w =
         (Raise (DatasetError msg), w, [])).
Proof.
  intros Hclaim.
  assert (Hl : wf_opt (Some [("location", PyNone)]))
    by (simpl; unfold dict_wf; simpl; repeat constructor; intros []).
  destruct (Hclaim Local.lib nat Local.fresh 0 "dataset" "table_name" None
              CredNone (Some [("location", PyNone)]) None None Hl I)
    as [msg Hrun].
  - simpl. discriminate.
  - vm_compute in Hrun. discriminate Hrun.
Qed.

(* ================================================================== *)
(** ** Existence probe of the table adapter (C6) *)

(** C6: [_exists] makes one probe, [get_table].  A probe that returns
    gives [True]; a probe that raises [NotFound] gives [False]; a probe
    that raises anything else raises the same exception.  So [False] is
    returned exactly when the probe raises [NotFound]. *)
Theorem C6_exists_probe (W : Type) (h : handler W) (w : W)
    (self : GBQTableDataset.t) :
  let table_ref := {| ref_client := GBQTableDataset._client self;
                      ref_dataset := GBQTableDataset._dataset self;
                      ref_table := GBQTableDataset._table_name self |} in
  let probe := fst (h _ (get_table (GBQTableDataset._client self) table_ref) w) in
  outcome h (GBQTableDataset._exists self) w =
    (match probe with
     | Ok _ => Ok true
     | Raise e => if is_NotFound e then Ok false else Raise e
     end, self) /\
  (fst (outcome h (GBQTableDataset._exists self) w) = Ok false <->
   exists msg, probe = Raise (NotFound msg)).
Proof.
  intros table_ref probe.
  assert (Hout : outcome h (GBQTableDataset._exists self) w =
    (match probe with
     | Ok _ => Ok true
     | Raise e => if is_NotFound e then Ok false else Raise e
     end, self)).
  { unfold probe, outcome, GBQTableDataset._exists. simpl.
    fold table_ref.
    destruct (h _ (get_table (GBQTableDataset._client self) table_ref) w)
      as [[u|e] w1]; simpl; [reflexivity|].
    destruct e; reflexivity. }
  split; [exact Hout|].
  rewrite Hout. simpl. destruct probe as [u|e].
  - split; [discriminate | intros [msg Hm]; discriminate Hm].
  - destruct e; simpl; split; intros Hx;
      try discriminate Hx;
      try (now destruct Hx); try (eexists; reflexivity).
Qed.

(* ================================================================== *)
(** ** Cache invalidation on save (C7) *)

Section SaveFacts.
Context {L : Lib}.
Variable W : Type.
Variable h : handler W.
Arguments h : clear implicits.

(** Answer the next call of the program under [run]. *)
Ltac answer :=
  match goal with
  | |- context [h ?X ?c ?w] =>
      let x := fresh "x" in
      let w' := fresh "w" in
      destruct (h X c w) as [[x|?] w']; simpl
  end.

(** [GraphMLDataset._save] that returns has invalidated the cache entry
    of the adapter's [_filepath] as its last call. *)
Lemma GraphML_save_invalidates (w : W) (self : GraphMLDataset.t)
    (data : Graph) :
  fst (outcome h (GraphMLDataset._save self data) w) = Ok tt ->
  exists t,
    trace h (GraphMLDataset._save self data) w =
    (t ++ [ev (fs_invalidate_cache (GraphMLDataset._fs self)
                 (get_filepath_str (GraphMLDataset._filepath self)
                    (GraphMLDataset._protocol self)))])%list.
Proof.
  unfold outcome, trace, GraphMLDataset._save,
    GraphMLDataset._invalidate_cache, with_open.
  simpl.
  answer; [|discriminate].
  answer; [|discriminate].
  answer.
  - answer; [|discriminate].
    answer; [|discriminate].
    intros _. eexists [_; _; _; _]. reflexivity.
  - answer; discriminate.
Qed.

(** [BioSequenceDataset._save] makes three calls at most, and none of
    them is [invalidate_cache]. *)
Lemma Bio_save_trace (w : W) (self : BioSequenceDataset.t)
    (data : list SeqRecord) :
  existsb is_any_invalidate
    (trace h (BioSequenceDataset._save self data) w) = false.
Proof.
  unfold trace, BioSequenceDataset._save, with_open. simpl.
  answer; [|reflexivity].
  answer; answer; reflexivity.
Qed.

(** Where a save and a later load meet: both open the path
    [get_filepath_str(self._filepath, self._protocol)] on the same
    filesystem object; what is read back is for the filesystem and the
    codec to decide. *)
Lemma Bio_save_load_same_path (w w' : W) (self : BioSequenceDataset.t)
    (data : list SeqRecord) :
  let path := get_filepath_str (BioSequenceDataset._filepath self)
                (BioSequenceDataset._protocol self) in
  hd_error (trace h (BioSequenceDataset._save self data) w) =
    Some (ev (fs_open (BioSequenceDataset._fs self) path
                (BioSequenceDataset._fs_open_args_save self))) /\
  hd_error (trace h (BioSequenceDataset._load self) w') =
    Some (ev (fs_open (BioSequenceDataset._fs self) path
                (BioSequenceDataset._fs_open_args_load self))).
Proof.
  unfold trace, BioSequenceDataset._save, BioSequenceDataset._load,
    with_open.
  simpl. split.
  - answer; [|reflexivity]. answer; answer; reflexivity.
  - answer; [|reflexivity]. answer; answer; reflexivity.
Qed.

End SaveFacts.

(** C7 at [BioSequenceDataset._save]: whatever the environment answers,
    and so also when the write succeeds, the calls made by the method
    never include [invalidate_cache]; on the docstring's instance the
    save returns after [open], [SeqIO.write] and the closing of the file
    only.  [GraphMLDataset._save] does invalidate
    ([GraphML_save_invalidates]). *)
Theorem C7_bio_save_skips_invalidation (L : Lib) (W : Type) (h : handler W)
    (w : W) (self : BioSequenceDataset.t) (data : list SeqRecord) :
  existsb is_any_invalidate
    (trace h (BioSequenceDataset._save self data) w) = false /\
  (let orchid :=
     {| BioSequenceDataset._filepath := "ls_orchid.fasta";
        BioSequenceDataset._protocol := "file";
        BioSequenceDataset._fs := FileSystem_at 0;
        BioSequenceDataset._load_args := [("format", PyStr "fasta")];
        BioSequenceDataset._save_args := [("format", PyStr "fasta")];
        BioSequenceDataset._fs_open_args_load := [("mode", PyStr "r")];
        BioSequenceDataset._fs_open_args_save := [("mode", PyStr "w")];
        BioSequenceDataset.metadata := None |} in
   let raw_data := [ {| id := "Alpha"; seq := "ACCGGATGTA" |};
                     {| id := "Beta"; seq := "AGGCTCGGTTA" |} ] in
   run Local.fresh (@BioSequenceDataset._save Local.lib orchid raw_data) 1 =
   ((Ok tt, orchid), 2,
    [ev (fs_open (FileSystem_at 0) "ls_orchid.fasta" [("mode", PyStr "w")]);
     ev (SeqIO_write raw_data (File_at 1) [("format", PyStr "fasta")]);
     ev (file_exit (File_at 1))])).
Proof.
  split; [apply Bio_save_trace | reflexivity].
Qed.

(* ================================================================== *)
(** ** The statement of the query adapter (C4) *)

(** C4: with [sql] and [filepath] both non-empty the constructor of
    GBQQueryDataset raises [DatasetError] before anything else; with both
    absent or empty it raises [DatasetError] as well; with exactly one
    of them non-empty it returns an instance, provided the collaborators
    it calls answer and, for a [filepath], the path parses. *)
Theorem C4_sql_xor_filepath (L : Lib) (W : Type) (h : handler W) (w : W)
    (sql project : option string) (credentials : credentials_arg)
    (load_args fs_args : option dict) (filepath : option string)
    (metadata : option dict) :
  let init := GBQQueryDataset.__init__ sql project credentials load_args
                fs_args filepath metadata in
  match truthy_str sql, truthy_str filepath with
  | true, true =>
      run h init w =
      (Raise (DatasetError GBQQueryDataset.both_provided), w, [])
  | false, false =>
      run h init w =
      (Raise (DatasetError GBQQueryDataset.both_empty), w, [])
  | is_sql, _ =>
      obliging h ->
      (is_sql = false ->
       is_ok (get_protocol_and_path (str (opt_str filepath)) None) = true) ->
      exists self, outcome h init w = Ok self
  end.
Proof.
  intros init. unfold init, GBQQueryDataset.__init__.
  destruct (truthy_str sql) eqn:Es, (truthy_str filepath) eqn:Ef;
    cbn [andb orb negb]; try reflexivity.
  - intros Hob _.
    destruct (coerce_credentials_obliging credentials w Hob) as [c Hc].
    erewrite outcome_bind_of_Ok by exact Hc.
    destruct (obliging_call
                (bigquery_Client project c
                   (get (merge_args GBQQueryDataset.DEFAULT_LOAD_ARGS
                           load_args) "location"))
                (final h (coerce_credentials credentials) w) Hob)
      as [bq Hbq].
    erewrite outcome_bind_of_Ok by exact Hbq.
    eexists. reflexivity.
  - intros Hob Hpath. specialize (Hpath eq_refl).
    destruct (coerce_credentials_obliging credentials w Hob) as [c Hc].
    erewrite outcome_bind_of_Ok by exact Hc.
    destruct (obliging_call
                (bigquery_Client project c
                   (get (merge_args GBQQueryDataset.DEFAULT_LOAD_ARGS
                           load_args) "location"))
                (final h (coerce_credentials credentials) w) Hob)
      as [bq Hbq].
    erewrite outcome_bind_of_Ok by exact Hbq.
    unfold pop, lift.
    destruct (get_protocol_and_path (str (opt_str filepath)) None)
      as [[protocol path]|e]; [|discriminate Hpath].
    cbn [bind].
    match goal with
    | |- context [do_call ?c] =>
        match goal with
        | |- context [outcome h _ ?w0] =>
            destruct (obliging_call c w0 Hob) as [fs Hfs]
        end
    end.
    erewrite outcome_bind_of_Ok by exact Hfs.
    eexists. reflexivity.
Qed.

(** [GBQQueryDataset(sql="SELECT * FROM dataset_1.table_a")], and the
    scenario with both locations given. *)
Lemma C4_sql_xor_filepath_witness :
  (exists self,
     outcome Local.fresh
       (@GBQQueryDataset.__init__ Local.lib
          (Some "SELECT * FROM dataset_1.table_a") (Some "my-project")
          CredNone None None None None) 0 = Ok self) /\
  run Local.fresh
    (@GBQQueryDataset.__init__ Local.lib (Some "SELECT 1") None CredNone
       None None (Some "q.sql") None) 0 =
  (Raise (DatasetError GBQQueryDataset.both_provided), 0, []).
Proof.
  split.
  - apply (@C4_sql_xor_filepath Local.lib nat Local.fresh 0
             (Some "SELECT * FROM dataset_1.table_a") (Some "my-project")
             CredNone None None None None).
    + intros X c n. destruct c; reflexivity.
    + intros Hsql. discriminate Hsql.
  - exact (@C4_sql_xor_filepath Local.lib nat Local.fresh 0
             (Some "SELECT 1") None CredNone None None (Some "q.sql") None).
Defined.

(* ================================================================== *)
(** ** Credentials stay out of [describe()] (C9) *)

(** C9: two successful constructions of the same adapter whose arguments
    differ in [credentials] only, in any two environments, give instances
    with the same [describe()]. *)
Theorem C9_describe_ignores_credentials (L : Lib)
    (W1 : Type) (h1 : handler W1) (w1 : W1)
    (W2 : Type) (h2 : handler W2) (w2 : W2)
    (a b : init_args) (d1 d2 : dataset) :
  differ_in_credentials a b ->
  outcome h1 (construct a) w1 = Ok d1 ->
  outcome h2 (construct b) w2 = Ok d2 ->
  describe d1 = describe d2.
Proof.
  intros Hdiff H1 H2.
  destruct Hdiff; simpl in H1, H2;
    apply outcome_bind_Ok in H1; destruct H1 as (s1 & Hi1 & Hr1);
    apply outcome_bind_Ok in H2; destruct H2 as (s2 & Hi2 & Hr2);
    apply outcome_ret in Hr1; apply outcome_ret in Hr2; subst d1 d2; simpl.
  - apply Bio_init_Ok in Hi1. apply Bio_init_Ok in Hi2.
    destruct Hi1 as (p1 & q1 & Hg1 & Hf1 & Hp1 & Hl1 & Hs1).
    destruct Hi2 as (p2 & q2 & Hg2 & Hf2 & Hp2 & Hl2 & Hs2).
    rewrite Hg1 in Hg2. injection Hg2 as <- <-.
    unfold BioSequenceDataset._describe.
    rewrite Hf1, Hf2, Hp1, Hp2, Hl1, Hl2, Hs1, Hs2. reflexivity.
  - apply GraphML_init_Ok in Hi1. apply GraphML_init_Ok in Hi2.
    destruct Hi1 as (p1 & q1 & Hg1 & Hf1 & Hp1 & Hv1 & Hl1 & Hs1).
    destruct Hi2 as (p2 & q2 & Hg2 & Hf2 & Hp2 & Hv2 & Hl2 & Hs2).
    rewrite Hg1 in Hg2. injection Hg2 as <- <-.
    unfold GraphMLDataset._describe.
    rewrite Hf1, Hf2, Hp1, Hp2, Hv1, Hv2, Hl1, Hl2, Hs1, Hs2. reflexivity.
  - apply GBQTable_init_Ok in Hi1. apply GBQTable_init_Ok in Hi2.
    destruct Hi1 as (Hd1 & Ht1 & Hl1 & Hs1).
    destruct Hi2 as (Hd2 & Ht2 & Hl2 & Hs2).
    unfold GBQTableDataset._describe.
    rewrite Hd1, Hd2, Ht1, Ht2, Hl1, Hl2, Hs1, Hs2. reflexivity.
  - apply GBQQuery_init_Ok in Hi1. apply GBQQuery_init_Ok in Hi2.
    unfold GBQQueryDataset._describe.
    destruct Hi1 as [(Hs1 & _ & Hl1 & Hf1) | (Hs1 & _ & Hl1 & p1 & q1 & Hg1 & Hf1)];
      destruct Hi2 as [(Hs2 & _ & Hl2 & Hf2) | (Hs2 & _ & Hl2 & p2 & q2 & Hg2 & Hf2)];
      try congruence.
    + rewrite Hl1, Hl2, Hf1, Hf2. reflexivity.
    + rewrite Hg1 in Hg2. injection Hg2 as <- <-.
      rewrite Hl1, Hl2, Hf1, Hf2. reflexivity.
  - apply Cohere_init_Ok in Hi1. apply Cohere_init_Ok in Hi2.
    unfold CohereDataset._describe. rewrite Hi1, Hi2. reflexivity.
Qed.

(** Two Cohere adapters with different keys and the same [kwargs]. *)
Lemma C9_describe_ignores_credentials_witness :
  let kwargs := Some [("model", PyStr "command"); ("temperature", PyInt 0)] in
  let a := Cohere_args [("cohere_api_url", PyStr "https://api.cohere.ai");
                        ("cohere_api_key", PyStr "key-one")] kwargs in
  let b := Cohere_args [("cohere_api_url", PyStr "https://api.cohere.ai");
                        ("cohere_api_key", PyStr "key-two")] kwargs in
  exists d1 d2,
    outcome Local.fresh (@construct Local.lib a) 0 = Ok d1 /\
    outcome Local.table_missing (@construct Local.lib b) 7 = Ok d2 /\
    @describe Local.lib d1 = @describe Local.lib d2.
Proof.
  intros kwargs a b. eexists. eexists.
  split; [reflexivity|]. split; [reflexivity|].
  apply (@C9_describe_ignores_credentials Local.lib
           nat Local.fresh 0 nat Local.table_missing 7 a b).
  - constructor.
  - reflexivity.
  - reflexivity.
Defined.

(* ================================================================== *)
(** ** Credentials of the Cohere adapter (C10) *)

(** C10: the constructor of CohereDataset looks up ["cohere_api_url"],
    then ["cohere_api_key"]; the first one missing raises [KeyError],
    which is not a [DatasetError].  With both present it returns the
    instance, without calling any collaborator, and an absent, [None] or
    empty [kwargs] is stored as the empty mapping. *)
Theorem C10_cohere_credentials (credentials : dict) (kwargs : option dict) :
  match dict_get "cohere_api_url" credentials,
        dict_get "cohere_api_key" credentials with
  | Some url, Some key =>
      CohereDataset.__init__ credentials kwargs =
      ret {| CohereDataset.cohere_api_url := url;
             CohereDataset.cohere_api_key := key;
             CohereDataset.kwargs :=
               match kwargs with
               | Some k => k
               | None => []
               end |}
  | None, _ =>
      CohereDataset.__init__ credentials kwargs =
        raise (KeyError "cohere_api_url") /\
      is_DatasetError (KeyError "cohere_api_url") = false
  | Some _, None =>
      CohereDataset.__init__ credentials kwargs =
        raise (KeyError "cohere_api_key") /\
      is_DatasetError (KeyError "cohere_api_key") = false
  end.
Proof.
  unfold CohereDataset.__init__, subscript, lift.
  destruct (dict_get "cohere_api_url" credentials) as [url|];
    destruct (dict_get "cohere_api_key" credentials) as [key|];
    simpl; try (split; reflexivity).
  destruct kwargs as [[|kv k]|]; reflexivity.
Qed.

(* ================================================================== *)
(** ** Streams of the file-backed adapters *)

Section StreamFacts.
Context {L : Lib}.
Variable W : Type.
Variable h : handler W.
Arguments h : clear implicits.

(** The [with] block: the stream is closed after the body, whatever the
    body did, and a failure to close replaces the body's outcome. *)
Lemma run_with_open {A} (fs : FileSystem) (path : string) (kw : dict)
    (body : File -> E A) (w : W) :
  run h (with_open fs path kw body) w =
  match h _ (fs_open fs path kw) w with
  | (Ok f, w1) =>
      let '(rb, w2, tb) := run h (body f) w1 in
      let (rx, w3) := h _ (file_exit f) w2 in
      (match rx with Ok _ => rb | Raise e => Raise e end, w3,
       ev (fs_open fs path kw) :: (tb ++ [ev (file_exit f)])%list)
  | (Raise e, w1) => (Raise e, w1, [ev (fs_open fs path kw)])
  end.
Proof.
  unfold with_open. rewrite run_bind, run_do_call.
  destruct (h _ (fs_open fs path kw) w) as [[f|e] w1]; simpl; [|reflexivity].
  rewrite run_finally.
  destruct (run h (body f) w1) as [[rb w2] tb].
  rewrite run_do_call.
  destruct (h _ (file_exit f) w2) as [rx w3]; simpl. reflexivity.
Qed.

(** X1.  [BioSequenceDataset._save], once [fs.open] has given a stream:
    it hands the data and the stored save options to [SeqIO.write],
    closes the stream as its last call also when the write raises, and
    then lets the write's exception through; the instance is unchanged. *)
Theorem X1_bio_save_closes_stream (w w1 : W) (self : BioSequenceDataset.t)
    (data : list SeqRecord) (f : File) :
  let path := get_filepath_str (BioSequenceDataset._filepath self)
                (BioSequenceDataset._protocol self) in
  let write := SeqIO_write data f (BioSequenceDataset._save_args self) in
  h _ (fs_open (BioSequenceDataset._fs self) path
         (BioSequenceDataset._fs_open_args_save self)) w = (Ok f, w1) ->
  trace h (BioSequenceDataset._save self data) w =
    [ev (fs_open (BioSequenceDataset._fs self) path
           (BioSequenceDataset._fs_open_args_save self));
     ev write; ev (file_exit f)] /\
  snd (outcome h (BioSequenceDataset._save self data) w) = self /\
  (forall e, fst (h _ write w1) = Raise e ->
             fst (h _ (file_exit f) (snd (h _ write w1))) = Ok tt ->
             fst (outcome h (BioSequenceDataset._save self data) w) = Raise e).
Proof.
  intros path write Hopen.
  unfold trace, outcome, BioSequenceDataset._save.
  rewrite run_leaving, run_with_open. fold path. rewrite Hopen.
  rewrite run_bind, run_do_call. fold write.
  destruct (h _ write w1) as [[n|e0] w2]; simpl;
    destruct (h _ (file_exit f) w2) as [[u|e1] w3]; simpl;
    repeat split; intros; try discriminate; try congruence.
Qed.

(** X2.  [BioSequenceDataset._load], when [fs.open], [SeqIO.parse] and the
    closing of the stream all succeed: it returns the parsed records as
    they are, after exactly these three calls, with the stored load
    options given to the parser. *)
Theorem X2_bio_load_returns_parsed (w w1 w2 : W)
    (self : BioSequenceDataset.t) (f : File) (records : list SeqRecord) :
  let path := get_filepath_str (BioSequenceDataset._filepath self)
                (BioSequenceDataset._protocol self) in
  let parse := SeqIO_parse f (BioSequenceDataset._load_args self) in
  h _ (fs_open (BioSequenceDataset._fs self) path
         (BioSequenceDataset._fs_open_args_load self)) w = (Ok f, w1) ->
  h _ parse w1 = (Ok records, w2) ->
  fst (h _ (file_exit f) w2) = Ok tt ->
  outcome h (BioSequenceDataset._load self) w = (Ok records, self) /\
  trace h (BioSequenceDataset._load self) w =
    [ev (fs_open (BioSequenceDataset._fs self) path
           (BioSequenceDataset._fs_open_args_load self));
     ev parse; ev (file_exit f)].
Proof.
  intros path parse Hopen Hparse Hexit.
  unfold trace, outcome, BioSequenceDataset._load.
  rewrite run_leaving, run_with_open. fold path. rewrite Hopen.
  rewrite run_do_call. fold parse. rewrite Hparse. simpl.
  destruct (h _ (file_exit f) w2) as [[u|e1] w3]; simpl in *;
    [split; reflexivity | discriminate Hexit].
Qed.

(** X3.  One path for the whole sequence adapter: [_exists] probes, and
    [_release] and [invalidate_cache] invalidate, the very path that
    [_save] and [_load] open, on the same filesystem object, and each of
    the three makes that one call only. *)
Theorem X3_bio_one_path (w : W) (self : BioSequenceDataset.t)
    (data : list SeqRecord) :
  let fs := BioSequenceDataset._fs self in
  let path := get_filepath_str (BioSequenceDataset._filepath self)
                (BioSequenceDataset._protocol self) in
  trace h (BioSequenceDataset._exists self) w = [ev (fs_exists fs path)] /\
  trace h (BioSequenceDataset._release self) w =
    [ev (fs_invalidate_cache fs path)] /\
  trace h (BioSequenceDataset.invalidate_cache self) w =
    [ev (fs_invalidate_cache fs path)] /\
  hd_error (trace h (BioSequenceDataset._save self data) w) =
    Some (ev (fs_open fs path (BioSequenceDataset._fs_open_args_save self))) /\
  hd_error (trace h (BioSequenceDataset._load self) w) =
    Some (ev (fs_open fs path (BioSequenceDataset._fs_open_args_load self))).
Proof.
  intros fs path. repeat split.
  - unfold trace, BioSequenceDataset._exists.
    rewrite run_leaving, run_do_call. reflexivity.
  - unfold trace, BioSequenceDataset._release,
      BioSequenceDataset.invalidate_cache.
    rewrite run_leaving, run_do_call. reflexivity.
  - unfold trace, BioSequenceDataset.invalidate_cache.
    rewrite run_leaving, run_do_call. reflexivity.
  - unfold trace, BioSequenceDataset._save.
    rewrite run_leaving, run_with_open. fold fs path.
    destruct (h _ (fs_open fs path
                     (BioSequenceDataset._fs_open_args_save self)) w)
      as [[f|e] w1]; [|reflexivity].
    match goal with
    | |- context [run h ?p w1] => destruct (run h p w1) as [[rb w2] tb]
    end.
    destruct (h _ (file_exit f) w2). reflexivity.
  - unfold trace, BioSequenceDataset._load.
    rewrite run_leaving, run_with_open. fold fs path.
    destruct (h _ (fs_open fs path
                     (BioSequenceDataset._fs_open_args_load self)) w)
      as [[f|e] w1]; [|reflexivity].
    match goal with
    | |- context [run h ?p w1] => destruct (run h p w1) as [[rb w2] tb]
    end.
    destruct (h _ (file_exit f) w2). reflexivity.
Qed.

End StreamFacts.

Lemma X1_bio_save_closes_stream_witness :
  let self :=
    {| BioSequenceDataset._filepath := "ls_orchid.fasta";
       BioSequenceDataset._protocol := "file";
       BioSequenceDataset._fs := FileSystem_at 0;
       BioSequenceDataset._load_args := [("format", PyStr "fasta")];
       BioSequenceDataset._save_args := [("format", PyStr "fasta")];
       BioSequenceDataset._fs_open_args_load := [("mode", PyStr "r")];
       BioSequenceDataset._fs_open_args_save := [("mode", PyStr "w")];
       BioSequenceDataset.metadata := None |} in
  snd (outcome Local.fresh
         (@BioSequenceDataset._save Local.lib self []) 1) = self.
Proof.
  intros self.
  exact (proj1 (proj2 (@X1_bio_save_closes_stream Local.lib nat Local.fresh
                         1 2 self [] (File_at 1) eq_refl))).
Defined.

Lemma X2_bio_load_returns_parsed_witness :
  let self :=
    {| BioSequenceDataset._filepath := "ls_orchid.fasta";
       BioSequenceDataset._protocol := "file";
       BioSequenceDataset._fs := FileSystem_at 0;
       BioSequenceDataset._load_args := [("format", PyStr "fasta")];
       BioSequenceDataset._save_args := [("format", PyStr "fasta")];
       BioSequenceDataset._fs_open_args_load := [("mode", PyStr "r")];
       BioSequenceDataset._fs_open_args_save := [("mode", PyStr "w")];
       BioSequenceDataset.metadata := None |} in
  outcome Local.fresh (@BioSequenceDataset._load Local.lib self) 1 =
  (Ok [], self).
Proof.
  intros self.
  exact (proj1 (@X2_bio_load_returns_parsed Local.lib nat Local.fresh
                  1 2 2 self (File_at 1) [] eq_refl eq_refl eq_refl)).
Defined.

(* ================================================================== *)
(** ** Filesystem options of the file-backed constructors *)

Lemma dict_get_setdefault (k k' : string) (v : pyval) (d : dict) :
  dict_get k (setdefault d k' v) =
  match dict_get k d with
  | Some x => Some x
  | None => if String.eqb k k' then Some v else None
  end.
Proof.
  unfold setdefault. rewrite has_key_get.
  destruct (dict_get k' d) as [x'|] eqn:E'.
  - destruct (dict_get k d) as [x|] eqn:E; [reflexivity|].
    destruct (String.eqb k k') eqn:Ek; [|reflexivity].
    apply String.eqb_eq in Ek. subst k'. congruence.
  - rewrite dict_get_set.
    destruct (String.eqb k k') eqn:Ek.
    + apply String.eqb_eq in Ek. subst k'. rewrite E'. reflexivity.
    + destruct (dict_get k d); reflexivity.
Qed.

Lemma keys_remove_incl (k k0 : string) (d : dict) :
  In k0 (keys (dict_remove k d)) -> In k0 (keys d).
Proof.
  induction d as [|[k1 v1] d IH]; simpl; [intros []|].
  destruct (String.eqb k k1); simpl.
  - intros Hin. now right.
  - intros [Heq | Hin]; [now left | right; now apply IH].
Qed.

Lemma dict_wf_remove (k : string) (d : dict) :
  dict_wf d -> dict_wf (dict_remove k d).
Proof.
  unfold dict_wf.
  induction d as [|[k1 v1] d IH]; simpl; intros Hwf; [constructor|].
  inversion Hwf as [|? ? Hnotin Hwf']; subst.
  destruct (String.eqb k k1); simpl; [exact Hwf'|].
  constructor; [|now apply IH].
  intros Hin. apply Hnotin. now apply keys_remove_incl in Hin.
Qed.

Lemma or_empty_wf (d : option dict) : wf_opt d -> dict_wf (or_empty d).
Proof.
  destruct d as [[|kv d]|]; simpl; intros Hwf;
    try exact Hwf; constructor.
Qed.

(** The keyword mapping both constructors build for [fsspec.filesystem]:
    the two reserved keys are gone, every other key of [fs_args] is kept,
    and [auto_mkdir=True] is added for the ["file"] protocol unless the
    user set [auto_mkdir]. *)
Lemma filesystem_keywords (protocol : string) (fs_args : option dict)
    (k : string) :
  wf_opt fs_args ->
  let rest := dict_remove "open_args_save"
                (dict_remove "open_args_load" (or_empty (deepcopy fs_args))) in
  let kw := if String.eqb protocol "file"
            then setdefault rest "auto_mkdir" (PyBool true)
            else rest in
  dict_get k kw =
  if String.eqb k "open_args_load" || String.eqb k "open_args_save"
  then None
  else match dict_get k (or_empty fs_args) with
       | Some v => Some v
       | None => if String.eqb protocol "file" && String.eqb k "auto_mkdir"
                 then Some (PyBool true) else None
       end.
Proof.
  intros Hwf rest kw. unfold deepcopy in rest.
  apply or_empty_wf in Hwf.
  assert (Hrest : dict_get k rest =
            if String.eqb k "open_args_load" || String.eqb k "open_args_save"
            then None else dict_get k (or_empty fs_args)).
  { unfold rest.
    destruct (String.eqb k "open_args_save") eqn:Es.
    - apply String.eqb_eq in Es. subst k. rewrite orb_true_r.
      apply dict_get_remove_same. now apply dict_wf_remove.
    - apply String.eqb_neq in Es.
      rewrite (dict_get_remove_other _ Es), orb_false_r.
      destruct (String.eqb k "open_args_load") eqn:El.
      + apply String.eqb_eq in El. subst k.
        now apply dict_get_remove_same.
      + apply String.eqb_neq in El. now apply dict_get_remove_other. }
  unfold kw. destruct (String.eqb protocol "file"); simpl.
  - rewrite dict_get_setdefault, Hrest.
    destruct (String.eqb k "open_args_load") eqn:El;
      destruct (String.eqb k "open_args_save") eqn:Es; simpl;
      try (apply String.eqb_eq in El; subst k; reflexivity);
      try (apply String.eqb_eq in Es; subst k; reflexivity).
    reflexivity.
  - rewrite Hrest.
    destruct (String.eqb k "open_args_load" || String.eqb k "open_args_save");
      [reflexivity|].
    destruct (dict_get k (or_empty fs_args)); reflexivity.
Qed.

Lemma hd_trace_bind_call {W : Type} (h : handler W) {X A B : Type}
    (c : call X) (f : X -> E A) (g : A -> E B) (w : W) :
  hd_error (trace h (bind (bind (do_call c) f) g) w) = Some (ev c).
Proof.
  unfold trace. rewrite !run_bind, run_do_call.
  destruct (h X c w) as [[x|e] w1]; simpl; [|reflexivity].
  destruct (run h (f x) w1) as [[[a|e] w2] t]; simpl; [|reflexivity].
  destruct (run h (g a) w2) as [[r w3] t']. reflexivity.
Qed.

(** X4.  What [BioSequenceDataset] and [GraphMLDataset] give to
    [fsspec.filesystem], their first call once the path has parsed: the
    protocol, the user's [credentials] (or none), and [fs_args] without
    [open_args_load] and [open_args_save], with [auto_mkdir=True] added
    for the ["file"] protocol unless the user chose a value. *)
Theorem X4_filesystem_arguments (L : Lib) (W : Type) (h : handler W) (w : W)
    (a : init_args) (protocol path : string) :
  match a with
  | Bio_args filepath _ _ credentials fs_args _
  | GraphML_args filepath _ _ _ credentials fs_args _ =>
      wf_opt fs_args ->
      get_protocol_and_path filepath
        (match a with
         | GraphML_args _ _ _ version _ _ _ => version
         | _ => None
         end) = Ok (protocol, path) ->
      exists kw,
        hd_error (trace h (construct a) w) =
          Some (ev (fsspec_filesystem protocol
                      (PyDict (or_empty credentials)) kw)) /\
        forall k,
          dict_get k kw =
          if String.eqb k "open_args_load" || String.eqb k "open_args_save"
          then None
          else match dict_get k (or_empty fs_args) with
               | Some v => Some v
               | None =>
                   if String.eqb protocol "file" && String.eqb k "auto_mkdir"
                   then Some (PyBool true) else None
               end
  | _ => True
  end.
Proof.
  destruct a; try exact I; intros Hwf Hpath; eexists; split.
  - unfold construct, BioSequenceDataset.__init__, pop, lift.
    rewrite Hpath. cbn [bind]. apply hd_trace_bind_call.
  - intros k. now apply filesystem_keywords.
  - unfold construct, GraphMLDataset.__init__, pop, lift.
    rewrite Hpath. cbn [bind]. apply hd_trace_bind_call.
  - intros k. now apply filesystem_keywords.
Qed.

(** [GraphMLDataset(filepath="test.graphml")], as in the class docstring. *)
Lemma X4_filesystem_arguments_witness :
  exists kw,
    hd_error (trace Local.fresh
                (@construct Local.lib
                   (GraphML_args "test.graphml" None None None None None None))
                0) =
    Some (ev (fsspec_filesystem "file" (PyDict []) kw)) /\
    dict_get "auto_mkdir" kw = Some (PyBool true) /\
    dict_get "open_args_load" kw = None.
Proof.
  destruct (@X4_filesystem_arguments Local.lib nat Local.fresh 0
              (GraphML_args "test.graphml" None None None None None None)
              "file" "test.graphml" I eq_refl) as (kw & Hhd & Hkw).
  exists kw. split; [exact Hhd|].
  rewrite !Hkw. split; reflexivity.
Defined.

Section OpenArgs.
Context {L : Lib}.
Variable W : Type.
Variable h : handler W.
Arguments h : clear implicits.

Ltac called H x :=
  rewrite outcome_Call in H;
  match type of H with
  | context [fst (h ?X ?c ?w)] =>
      destruct (fst (h X c w)) as [x|?]; [|discriminate H]
  end;
  simpl in H.




End OpenArgs.




(* ================================================================== *)
(** ** The table adapter: load, save and the client *)

Lemma has_key_setdefault (k : string) (v : pyval) (d : dict) :
  has_key k (setdefault d k v) = true.
Proof.
  rewrite has_key_get, dict_get_setdefault, String.eqb_refl.
  destruct (dict_get k d); reflexivity.
Qed.

Lemma setdefault_present (k : string) (v : pyval) (d : dict) :
  has_key k d = true -> setdefault d k v = d.
Proof. unfold setdefault. intros ->. reflexivity. Qed.

Lemma setdefault_twice (k : string) (v : pyval) (d : dict) :
  setdefault (setdefault d k v) k v = setdefault d k v.
Proof. apply setdefault_present, has_key_setdefault. Qed.

Lemma with_load_args_same (self : GBQTableDataset.t) :
  GBQTableDataset.with_load_args self (GBQTableDataset._load_args self) = self.
Proof. destruct self. reflexivity. Qed.

(** X6.  [GBQTableDataset._load] with a ["query"] among the load options:
    the stored map goes to [read_gbq] untouched, so the user's statement
    is the one executed, not the generated "select all"; the instance is
    unchanged and [read_gbq]'s answer is the outcome. *)
Theorem X6_table_load_keeps_user_query (W : Type) (h : handler W) (w : W)
    (self : GBQTableDataset.t) (q : pyval) :
  dict_get "query" (GBQTableDataset._load_args self) = Some q ->
  let read := read_gbq (GBQTableDataset._project_id self)
                (GBQTableDataset._credentials self)
                (GBQTableDataset._load_args self) in
  run h (GBQTableDataset._load self) w =
  ((fst (h _ read w), self), snd (h _ read w), [ev read]).
Proof.
  intros Hq read. unfold GBQTableDataset._load.
  rewrite setdefault_present by (rewrite has_key_get, Hq; reflexivity).
  rewrite with_load_args_same, run_leaving, run_do_call. reflexivity.
Qed.

Lemma X6_table_load_keeps_user_query_witness :
  let self :=
    {| GBQTableDataset._load_args := [("query", PyStr "some query")];
       GBQTableDataset._save_args := [("progress_bar", PyBool false)];
       GBQTableDataset._dataset := "dataset";
       GBQTableDataset._table_name := "table_name";
       GBQTableDataset._project_id := Some "my-project";
       GBQTableDataset._credentials := None;
       GBQTableDataset._client := Client_at 0;
       GBQTableDataset.metadata := None |} in
  run Local.fresh (GBQTableDataset._load self) 1 =
  ((Ok (DataFrame_at 1), self), 2,
   [ev (read_gbq (Some "my-project") None [("query", PyStr "some query")])]).
Proof.
  intros self.
  exact (@X6_table_load_keeps_user_query nat Local.fresh 1 self
           (PyStr "some query") eq_refl).
Defined.

(** X7.  [GBQTableDataset._load] settles after one call: whatever the
    instance and the environments, a second load leaves the instance as
    the first one left it and sends [read_gbq] the same arguments. *)
Theorem X7_table_load_settles (W W' : Type) (h : handler W) (h' : handler W')
    (w : W) (w' : W') (self : GBQTableDataset.t) :
  let once := snd (outcome h (GBQTableDataset._load self) w) in
  snd (outcome h' (GBQTableDataset._load once) w') = once /\
  trace h' (GBQTableDataset._load once) w' =
  trace h (GBQTableDataset._load self) w.
Proof.
  intros once.
  assert (Honce : once =
    GBQTableDataset.with_load_args self
      (setdefault (GBQTableDataset._load_args self) "query"
         (PyStr ("select * from " ++ GBQTableDataset._dataset self ++ "." ++
                 GBQTableDataset._table_name self)))).
  { unfold once, outcome, GBQTableDataset._load. rewrite run_leaving.
    destruct (run h _ w) as [[r w1] t]. reflexivity. }
  assert (Hload : forall (V : Type) (g : handler V) (v : V)
                         (s : GBQTableDataset.t),
    run g (GBQTableDataset._load s) v =
    let s' := GBQTableDataset.with_load_args s
                (setdefault (GBQTableDataset._load_args s) "query"
                   (PyStr ("select * from " ++ GBQTableDataset._dataset s ++
                           "." ++ GBQTableDataset._table_name s))) in
    let read := read_gbq (GBQTableDataset._project_id s')
                  (GBQTableDataset._credentials s')
                  (GBQTableDataset._load_args s') in
    ((fst (g _ read v), s'), snd (g _ read v), [ev read])).
  { intros V g v s. unfold GBQTableDataset._load.
    rewrite run_leaving, run_do_call. reflexivity. }
  unfold outcome, trace. rewrite !Hload. cbn zeta. cbn [fst snd].
  rewrite Honce. cbn [GBQTableDataset.with_load_args
    GBQTableDataset._load_args GBQTableDataset._dataset
    GBQTableDataset._table_name GBQTableDataset._project_id
    GBQTableDataset._credentials].
  rewrite setdefault_twice. split; reflexivity.
Qed.

Section TableInit.
Context {L : Lib}.
Variable W : Type.
Variable h : handler W.
Arguments h : clear implicits.

(** A successful construction of the table adapter, call by call. *)
Lemma GBQTable_init_run dataset table_name project credentials load_args
    save_args metadata (w : W) (self : GBQTableDataset.t) :
  outcome h (GBQTableDataset.__init__ dataset table_name project credentials
               load_args save_args metadata) w = Ok self ->
  let _load_args := merge_args GBQTableDataset.DEFAULT_LOAD_ARGS load_args in
  let _save_args := merge_args GBQTableDataset.DEFAULT_SAVE_ARGS save_args in
  py_neb (get _save_args "location") (get _load_args "location") = false /\
  exists bq,
    self = {| GBQTableDataset._load_args := _load_args;
              GBQTableDataset._save_args := _save_args;
              GBQTableDataset._dataset := dataset;
              GBQTableDataset._table_name := table_name;
              GBQTableDataset._project_id := project;
              GBQTableDataset._credentials := GBQTableDataset._credentials self;
              GBQTableDataset._client := bq;
              GBQTableDataset.metadata := metadata |} /\
    trace h (GBQTableDataset.__init__ dataset table_name project credentials
               load_args save_args metadata) w =
    (match credentials with
     | CredDict d => [ev (Credentials_new d)]
     | _ => []
     end ++
     [ev (bigquery_Client project (GBQTableDataset._credentials self)
            (get _save_args "location"))])%list.
Proof.
  intros Hok la sa. revert Hok.
  unfold outcome, trace, GBQTableDataset.__init__,
    GBQTableDataset._validate_location, lift.
  fold la sa.
  destruct (py_neb (get sa "location") (get la "location"));
    [discriminate|].
  cbn [bind ret].
  destruct (validate_on_forbidden_chars _) as [u|e]; [|discriminate].
  cbn [bind].
  destruct credentials as [|d|c]; simpl.
  - destruct (h _ (bigquery_Client project None (get sa "location")) w)
      as [[bq|e] w1]; simpl; [|discriminate].
    intros [= <-]. split; [reflexivity|]. exists bq. split; reflexivity.
  - destruct (h _ (Credentials_new d) w) as [[c|e] w1]; simpl;
      [|discriminate].
    destruct (h _ (bigquery_Client project (Some c) (get sa "location")) w1)
      as [[bq|e] w2]; simpl; [|discriminate].
    intros [= <-]. split; [reflexivity|]. exists bq. split; reflexivity.
  - destruct (h _ (bigquery_Client project (Some c) (get sa "location")) w)
      as [[bq|e] w1]; simpl; [|discriminate].
    intros [= <-]. split; [reflexivity|]. exists bq. split; reflexivity.
Qed.

End TableInit.

(** X8.  A table adapter that is constructed has created its BigQuery
    client last, after at most one call that builds the credentials
    object, with the project it was given and with the location of
    [save_args], which Python's [==] finds equal to that of [load_args]
    (an absent key reading as [None]). *)
Theorem X8_table_client_location (L : Lib) (W : Type) (h : handler W) (w : W)
    (dataset table_name : string) (project : option string)
    (credentials : credentials_arg)
    (load_args save_args metadata : option dict) (self : GBQTableDataset.t) :
  wf_opt load_args ->
  wf_opt save_args ->
  outcome h (GBQTableDataset.__init__ dataset table_name project credentials
               load_args save_args metadata) w = Ok self ->
  trace h (GBQTableDataset.__init__ dataset table_name project credentials
             load_args save_args metadata) w =
    (match credentials with
     | CredDict d => [ev (Credentials_new d)]
     | _ => []
     end ++
     [ev (bigquery_Client project (GBQTableDataset._credentials self)
            (user_location save_args))])%list /\
  py_eqb (user_location save_args) (user_location load_args) = true /\
  GBQTableDataset._project_id self = project.
Proof.
  intros Hl Hs Hok.
  apply GBQTable_init_run in Hok. cbv zeta in Hok.
  destruct Hok as (Hloc & bq & Hself & Htrace).
  rewrite (merged_location _ _ Hs) in Hloc, Htrace by reflexivity.
  rewrite (merged_location _ _ Hl) in Hloc by reflexivity.
  split; [exact Htrace|]. split.
  - unfold py_neb in Hloc. now apply negb_false_iff in Hloc.
  - rewrite Hself. reflexivity.
Qed.

(** Both maps ask for ["EU"]. *)
Lemma X8_table_client_location_witness :
  trace Local.fresh
    (@GBQTableDataset.__init__ Local.lib "dataset" "table_name"
       (Some "my-project") CredNone (Some [("location", PyStr "EU")])
       (Some [("location", PyStr "EU"); ("chunk_size", PyInt 100)]) None) 0 =
  [ev (bigquery_Client (Some "my-project") None (PyStr "EU"))].
Proof.
  assert (Hl : wf_opt (Some [("location", PyStr "EU")]))
    by (simpl; unfold dict_wf; simpl; repeat constructor; intros []).
  assert (Hs : wf_opt (Some [("location", PyStr "EU");
                             ("chunk_size", PyInt 100)])).
  { simpl. unfold dict_wf. simpl. repeat constructor.
    - intros [Heq | []]. discriminate Heq.
    - intros []. }
  exact (proj1 (@X8_table_client_location Local.lib nat Local.fresh 0
                  "dataset" "table_name" (Some "my-project") CredNone
                  (Some [("location", PyStr "EU")])
                  (Some [("location", PyStr "EU"); ("chunk_size", PyInt 100)])
                  None _ Hl Hs eq_refl)).
Defined.

(** X9.  When the locations agree and [validate_on_forbidden_chars]
    rejects the dataset or table name, the table adapter's constructor
    raises that exception before it builds credentials or a client: no
    call is made. *)
Theorem X9_table_names_checked_first (L : Lib) (W : Type) (h : handler W)
    (w : W) (dataset table_name : string) (project : option string)
    (credentials : credentials_arg)
    (load_args save_args metadata : option dict) (e : exn) :
  wf_opt load_args ->
  wf_opt save_args ->
  py_neb (user_location save_args) (user_location load_args) = false ->
  validate_on_forbidden_chars
    [("dataset", PyStr dataset); ("table_name", PyStr table_name)] = Raise e ->
  run h (GBQTableDataset.__init__ dataset table_name project credentials
           load_args save_args metadata) w = (Raise e, w, []).
Proof.
  intros Hl Hs Hloc Hbad.
  unfold GBQTableDataset.__init__, GBQTableDataset._validate_location, lift.
  rewrite (merged_location _ _ Hs), (merged_location _ _ Hl), Hloc, Hbad;
    reflexivity.
Qed.



(** A table name with a semicolon in it. *)
Lemma X9_table_names_checked_first_witness :
  run Local.fresh
    (@GBQTableDataset.__init__ Strict.lib "dataset" "table;drop" None
       (CredDict [("token", PyStr "secret")]) None None None) 0 =
  (Raise (DatasetError
            "Neither white-space nor semicolon are allowed in 'table_name'."),
   0, []).
Proof.
  apply (@X9_table_names_checked_first Strict.lib nat Local.fresh 0).
  - exact I.
  - exact I.
  - reflexivity.
  - reflexivity.
Defined.

(* ================================================================== *)
(** ** The query adapter: which statement is executed *)

Section QueryInit.
Context {L : Lib}.
Variable W : Type.
Variable h : handler W.
Arguments h : clear implicits.

Ltac called H x :=
  rewrite outcome_Call in H;
  match type of H with
  | context [fst (h ?X ?c ?w)] =>
      destruct (fst (h X c w)) as [x|?]; [|discriminate H]
  end;
  simpl in H.

(** A constructed query adapter, attribute by attribute. *)
Lemma GBQQuery_init_shape sql project credentials load_args fs_args filepath
    metadata (w : W) (self : GBQQueryDataset.t) :
  outcome h (GBQQueryDataset.__init__ sql project credentials load_args
               fs_args filepath metadata) w = Ok self ->
  let merged := merge_args GBQQueryDataset.DEFAULT_LOAD_ARGS load_args in
  GBQQueryDataset._project_id self = project /\
  ((truthy_str sql = true /\
    GBQQueryDataset._load_args self = dict_set "query" (opt_str sql) merged /\
    GBQQueryDataset._filepath self = None)
   \/
   (truthy_str sql = false /\
    GBQQueryDataset._load_args self = merged /\
    exists protocol path fs,
      get_protocol_and_path (str (opt_str filepath)) None
        = Ok (protocol, path) /\
      GBQQueryDataset._filepath self = Some path /\
      GBQQueryDataset._protocol self = Some protocol /\
      GBQQueryDataset._fs self = Some fs)).
Proof.
  intros Hok merged. unfold GBQQueryDataset.__init__ in Hok.
  destruct (truthy_str sql) eqn:Es, (truthy_str filepath) eqn:Ef;
    cbn [andb orb negb] in Hok; try discriminate Hok.
  - apply coerce_credentials_Ok in Hok. destruct Hok as (c & w' & Hok).
    simpl in Hok. called Hok bq.
    apply outcome_ret in Hok. subst self. simpl.
    split; [reflexivity|]. left. repeat split; reflexivity.
  - apply coerce_credentials_Ok in Hok. destruct Hok as (c & w' & Hok).
    unfold pop, lift in Hok. simpl in Hok. called Hok bq.
    destruct (get_protocol_and_path (str (opt_str filepath)) None)
      as [[protocol path]|e]; [|discriminate Hok].
    simpl in Hok. called Hok fs.
    apply outcome_ret in Hok. subst self. simpl.
    split; [reflexivity|]. right. repeat split; try reflexivity.
    exists protocol, path, fs. repeat split; reflexivity.
Qed.

End QueryInit.

(** X11.  A query adapter constructed from an inline [sql]: every
    [_load] makes one call, [read_gbq], whose ["query"] is that [sql]
    (also when [load_args] had a ["query"] of its own) and whose other
    options are the user's load options; no file is opened, and the
    instance is unchanged. *)
Theorem X11_query_load_runs_sql (L : Lib) (W W' : Type) (h : handler W)
    (h' : handler W') (w : W) (w' : W')
    (sql project : option string) (credentials : credentials_arg)
    (load_args fs_args : option dict) (filepath : option string)
    (metadata : option dict) (self : GBQQueryDataset.t) :
  wf_opt load_args ->
  truthy_str sql = true ->
  outcome h (GBQQueryDataset.__init__ sql project credentials load_args
               fs_args filepath metadata) w = Ok self ->
  exists kw,
    let read := read_gbq project (GBQQueryDataset._credentials self) kw in
    run h' (GBQQueryDataset._load self) w' =
      ((fst (h' _ read w'), self), snd (h' _ read w'), [ev read]) /\
    dict_get "query" kw = Some (opt_str sql) /\
    forall k, k <> "query" ->
      dict_get k kw = overridden GBQQueryDataset.DEFAULT_LOAD_ARGS load_args k.
Proof.
  intros Hwf Hsql Hok.
  apply GBQQuery_init_shape in Hok. cbv zeta in Hok.
  destruct Hok as (Hproj & [(_ & Hla & Hfp) | (Hno & _)]); [|congruence].
  exists (GBQQueryDataset._load_args self). split; [|split].
  - unfold GBQQueryDataset._load, deepcopy. rewrite Hfp. cbn [truthy_str].
    rewrite run_leaving. cbn [bind ret].
    rewrite run_do_call, Hproj. reflexivity.
  - rewrite Hla, dict_get_set, String.eqb_refl. reflexivity.
  - intros k Hk. rewrite Hla, dict_get_set.
    apply String.eqb_neq in Hk. rewrite Hk. now apply merge_args_get.
Qed.

(** [GBQQueryDataset(sql, project="my-project")] of the class docstring,
    with a ["query"] slipped into [load_args]. *)
Lemma X11_query_load_runs_sql_witness :
  exists self kw,
    outcome Local.fresh
      (@GBQQueryDataset.__init__ Local.lib
         (Some "SELECT * FROM dataset_1.table_a") (Some "my-project")
         CredNone (Some [("query", PyStr "SELECT 2")]) None None None) 0 =
    Ok self /\
    trace Local.fresh (@GBQQueryDataset._load Local.lib self) 1 =
      [ev (read_gbq (Some "my-project") None kw)] /\
    dict_get "query" kw = Some (PyStr "SELECT * FROM dataset_1.table_a").
Proof.
  eexists.
  assert (Hwf : wf_opt (Some [("query", PyStr "SELECT 2")]))
    by (simpl; unfold dict_wf; simpl; repeat constructor; intros []).
  destruct (@X11_query_load_runs_sql Local.lib nat nat Local.fresh Local.fresh
              0 1 (Some "SELECT * FROM dataset_1.table_a") (Some "my-project")
              CredNone (Some [("query", PyStr "SELECT 2")]) None None None _
              Hwf eq_refl eq_refl) as (kw & Hrun & Hq & _).
  exists kw. split; [reflexivity|]. split.
  - unfold trace. rewrite Hrun. reflexivity.
  - exact Hq.
Defined.

(** X12.  A query adapter constructed from a [filepath] that resolved to
    a non-empty path: [_load] opens that path in mode ["r"] on the
    adapter's filesystem, reads it, closes it, and then calls [read_gbq]
    with the text read as ["query"], in place of any ["query"] of
    [load_args], and with the other load options as the user gave them.
    The stored options and the instance are unchanged. *)
Theorem X12_query_load_reads_file (L : Lib) (W W' : Type) (h : handler W)
    (h' : handler W') (w : W) (w' w1 w2 : W')
    (sql project : option string) (credentials : credentials_arg)
    (load_args fs_args : option dict) (filepath : option string)
    (metadata : option dict) (self : GBQQueryDataset.t)
    (protocol path text : string) (fs : FileSystem) (f : File) :
  wf_opt load_args ->
  truthy_str sql = false ->
  outcome h (GBQQueryDataset.__init__ sql project credentials load_args
               fs_args filepath metadata) w = Ok self ->
  get_protocol_and_path (str (opt_str filepath)) None = Ok (protocol, path) ->
  path <> "" ->
  GBQQueryDataset._fs self = Some fs ->
  let open := fs_open fs (get_filepath_str (PurePosixPath path) protocol)
                [("mode", PyStr "r")] in
  h' _ open w' = (Ok f, w1) ->
  h' _ (file_read f) w1 = (Ok text, w2) ->
  fst (h' _ (file_exit f) w2) = Ok tt ->
  exists kw,
    let read := read_gbq project (GBQQueryDataset._credentials self) kw in
    let w3 := snd (h' _ (file_exit f) w2) in
    run h' (GBQQueryDataset._load self) w' =
      ((fst (h' _ read w3), self), snd (h' _ read w3),
       [ev open; ev (file_read f); ev (file_exit f); ev read]) /\
    dict_get "query" kw = Some (PyStr text) /\
    forall k, k <> "query" ->
      dict_get k kw = overridden GBQQueryDataset.DEFAULT_LOAD_ARGS load_args k.
Proof.
  intros Hwf Hsql Hok Hpath Hne Hfs open Hopen Hread Hexit.
  apply GBQQuery_init_shape in Hok. cbv zeta in Hok.
  destruct Hok as (Hproj & [(Hyes & _) | (_ & Hla & p & q & fs0 & Hg & Hfp
                                           & Hpr & Hfs0)]); [congruence|].
  rewrite Hpath in Hg. injection Hg as <- <-.
  exists (dict_set "query" (PyStr text) (GBQQueryDataset._load_args self)).
  split; [|split].
  - unfold GBQQueryDataset._load, deepcopy. rewrite Hfp, Hpr, Hfs.
    assert (Ht : truthy_str (Some path) = true).
    { simpl. apply String.eqb_neq in Hne. rewrite Hne. reflexivity. }
    rewrite Ht, run_leaving, run_bind, run_with_open.
    fold open. rewrite Hopen, run_bind, run_do_call, Hread.
    cbn [fst snd run ret app].
    destruct (h' _ (file_exit f) w2) as [[u|e] w3]; [|discriminate Hexit].
    cbn [fst snd]. rewrite run_do_call, Hproj. reflexivity.
  - rewrite dict_get_set, String.eqb_refl. reflexivity.
  - intros k Hk. rewrite dict_get_set, Hla.
    apply String.eqb_neq in Hk. rewrite Hk. now apply merge_args_get.
Qed.

(** [GBQQueryDataset(filepath="q.sql")] where the file holds "SELECT 1". *)
Lemma X12_query_load_reads_file_witness :
  exists self kw,
    outcome Local.fresh
      (@GBQQueryDataset.__init__ Local.lib None None CredNone
         (Some [("query", PyStr "SELECT 2")]) None (Some "q.sql") None) 0 =
    Ok self /\
    trace Local.fresh (@GBQQueryDataset._load Local.lib self) 2 =
      [ev (fs_open (FileSystem_at 1) "q.sql" [("mode", PyStr "r")]);
       ev (file_read (File_at 2)); ev (file_exit (File_at 2));
       ev (read_gbq None None kw)] /\
    dict_get "query" kw = Some (PyStr "SELECT 1").
Proof.
  eexists.
  assert (Hwf : wf_opt (Some [("query", PyStr "SELECT 2")]))
    by (simpl; unfold dict_wf; simpl; repeat constructor; intros []).
  destruct (@X12_query_load_reads_file Local.lib nat nat Local.fresh
              Local.fresh 0 2 3 3 None None CredNone
              (Some [("query", PyStr "SELECT 2")]) None (Some "q.sql") None _
              "file" "q.sql" "SELECT 1" (FileSystem_at 1) (File_at 2)
              Hwf eq_refl eq_refl eq_refl ltac:(discriminate) eq_refl
              eq_refl eq_refl eq_refl) as (kw & Hrun & Hq & _).
  exists kw. split; [reflexivity|]. split.
  - unfold trace. rewrite Hrun. reflexivity.
  - exact Hq.
Defined.

(* ================================================================== *)
(** ** The graph adapter: versioned paths and the cache *)

Section GraphFacts.
Context {L : Lib}.
Variable W : Type.
Variable h : handler W.
Arguments h : clear implicits.

(** X13.  [GraphMLDataset._save], once the save path [p] is resolved and
    opened.  If [write_graphml] and the closing succeed, the calls are
    resolve, open, write, close, invalidate, in this order, the
    invalidated entry is that of the adapter's own [_filepath] (not of
    the resolved, possibly versioned, path [p]), and the outcome is that
    of the invalidation.  If [write_graphml] raises, the stream is still
    closed, nothing is invalidated, and the exception is the outcome. *)
Theorem X13_graphml_save_order (w w1 w2 : W) (self : GraphMLDataset.t)
    (data : Graph) (p : string) (f : File) :
  let fs := GraphMLDataset._fs self in
  let protocol := GraphMLDataset._protocol self in
  let resolve := _get_save_path (GraphMLDataset._filepath self)
                   (GraphMLDataset._version self) in
  let open := fs_open fs (get_filepath_str p protocol)
                (GraphMLDataset._fs_open_args_save self) in
  let write := write_graphml data f (GraphMLDataset._save_args self) in
  let invalidate :=
    fs_invalidate_cache fs
      (get_filepath_str (GraphMLDataset._filepath self) protocol) in
  h _ resolve w = (Ok p, w1) ->
  h _ open w1 = (Ok f, w2) ->
  let w3 := snd (h _ write w2) in
  let w4 := snd (h _ (file_exit f) w3) in
  fst (h _ (file_exit f) w3) = Ok tt ->
  match fst (h _ write w2) with
  | Ok _ =>
      run h (GraphMLDataset._save self data) w =
      ((fst (h _ invalidate w4), self), snd (h _ invalidate w4),
       [ev resolve; ev open; ev write; ev (file_exit f); ev invalidate])
  | Raise e =>
      run h (GraphMLDataset._save self data) w =
      ((Raise e, self), w4, [ev resolve; ev open; ev write; ev (file_exit f)])
  end.
Proof.
  intros fs protocol resolve open write invalidate Hres Hopen w3 w4 Hexit.
  subst w4 w3 invalidate write open resolve protocol fs.
  unfold GraphMLDataset._save, GraphMLDataset._invalidate_cache.
  rewrite run_leaving, run_bind, run_do_call, Hres. cbn [fst snd].
  rewrite run_bind, run_with_open, Hopen, run_do_call.
  destruct (h _ (write_graphml data f (GraphMLDataset._save_args self)) w2)
    as [rw w3].
  cbn [fst snd] in *.
  destruct (h _ (file_exit f) w3) as [[u|e] w4]; [|discriminate Hexit].
  cbn [fst snd].
  destruct rw as [u'|e]; simpl.
  - destruct (h _ (fs_invalidate_cache (GraphMLDataset._fs self)
                     (get_filepath_str (GraphMLDataset._filepath self)
                        (GraphMLDataset._protocol self))) w4) as [ri w5].
    reflexivity.
  - reflexivity.
Qed.

(** X14.  [GraphMLDataset._exists] and [_load] look at the same file:
    both first resolve the load path and then address
    [get_filepath_str] of the answer on the adapter's filesystem, the
    one with [exists], the other with [open].  [_exists] returns what
    the filesystem answers and converts no exception. *)
Theorem X14_graphml_exists_load_path (w w1 : W) (self : GraphMLDataset.t)
    (p : string) :
  let fs := GraphMLDataset._fs self in
  let resolve := _get_load_path (GraphMLDataset._filepath self)
                   (GraphMLDataset._version self) in
  let path := get_filepath_str p (GraphMLDataset._protocol self) in
  h _ resolve w = (Ok p, w1) ->
  run h (GraphMLDataset._exists self) w =
    ((fst (h _ (fs_exists fs path) w1), self), snd (h _ (fs_exists fs path) w1),
     [ev resolve; ev (fs_exists fs path)]) /\
  exists t,
    trace h (GraphMLDataset._load self) w =
    ev resolve ::
    ev (fs_open fs path (GraphMLDataset._fs_open_args_load self)) :: t.
Proof.
  intros fs resolve path Hres. split.
  - unfold GraphMLDataset._exists. fold fs resolve.
    rewrite run_leaving, run_bind, run_do_call, Hres. cbn [fst snd].
    fold path. rewrite run_do_call. reflexivity.
  - unfold trace, GraphMLDataset._load. fold fs resolve.
    rewrite run_leaving, run_bind, run_do_call, Hres. cbn [fst snd].
    fold path. rewrite run_with_open.
    destruct (h _ (fs_open fs path (GraphMLDataset._fs_open_args_load self))
                w1) as [[f|e] w2].
    + match goal with
      | |- context [run h ?q w2] => destruct (run h q w2) as [[rb w3] tb]
      end.
      destruct (h _ (file_exit f) w3) as [rx w4].
      eexists. reflexivity.
    + eexists. reflexivity.
Qed.

End GraphFacts.

(** The graph of the class docstring saved to ["test.graphml"]. *)
Lemma X13_graphml_save_order_witness :
  let self :=
    {| GraphMLDataset._protocol := "file";
       GraphMLDataset._fs := FileSystem_at 0;
       GraphMLDataset.metadata := None;
       GraphMLDataset._filepath := "test.graphml";
       GraphMLDataset._version := None;
       GraphMLDataset._load_args := [];
       GraphMLDataset._save_args := [];
       GraphMLDataset._fs_open_args_load := [("mode", PyStr "rb")];
       GraphMLDataset._fs_open_args_save := [("mode", PyStr "wb")] |} in
  run Local.fresh (@GraphMLDataset._save Local.lib self (Graph_at 7)) 1 =
  ((Ok tt, self), 2,
   [ev (_get_save_path "test.graphml" None);
    ev (fs_open (FileSystem_at 0) "test.graphml" [("mode", PyStr "wb")]);
    ev (write_graphml (Graph_at 7) (File_at 1) []);
    ev (file_exit (File_at 1));
    ev (fs_invalidate_cache (FileSystem_at 0) "test.graphml")]).
Proof.
  intros self.
  exact (@X13_graphml_save_order Local.lib nat Local.fresh 1 1 2 self
           (Graph_at 7) "test.graphml" (File_at 1) eq_refl eq_refl eq_refl).
Defined.

Lemma X14_graphml_exists_load_path_witness :
  let self :=
    {| GraphMLDataset._protocol := "file";
       GraphMLDataset._fs := FileSystem_at 0;
       GraphMLDataset.metadata := None;
       GraphMLDataset._filepath := "test.graphml";
       GraphMLDataset._version := None;
       GraphMLDataset._load_args := [];
       GraphMLDataset._save_args := [];
       GraphMLDataset._fs_open_args_load := [("mode", PyStr "rb")];
       GraphMLDataset._fs_open_args_save := [("mode", PyStr "wb")] |} in
  run Local.fresh (@GraphMLDataset._exists Local.lib self) 1 =
  ((Ok true, self), 1,
   [ev (_get_load_path "test.graphml" None);
    ev (fs_exists (FileSystem_at 0) "test.graphml")]).
Proof.
  intros self.
  exact (proj1 (@X14_graphml_exists_load_path Local.lib nat Local.fresh 1 1
                  self "test.graphml" eq_refl)).
Defined.

(* ================================================================== *)
(** ** The hosted model *)

(** X15.  [CohereDataset._load] when the three constructors answer: the
    model is built with the placeholder key ["_"] and the stored
    [kwargs], then a client and an async client are built from the
    credentials' key and URL under the model's own [user_agent], and the
    model is returned with both attached.  The instance is unchanged. *)
Theorem X15_cohere_load_attaches_clients (W : Type) (h : handler W)
    (w w1 w2 w3 : W) (self : CohereDataset.t) (llm : Cohere)
    (c a : CohereClient) :
  let key := CohereDataset.cohere_api_key self in
  let url := CohereDataset.cohere_api_url self in
  let ua := user_agent llm in
  h _ (Cohere_new "_" (CohereDataset.kwargs self)) w = (Ok llm, w1) ->
  h _ (cohere_Client key url ua) w1 = (Ok c, w2) ->
  h _ (cohere_AsyncClient key url ua) w2 = (Ok a, w3) ->
  run h (CohereDataset._load self) w =
  ((Ok {| llm_id := llm_id llm; user_agent := ua;
          client := Some c; async_client := Some a |}, self), w3,
   [ev (Cohere_new "_" (CohereDataset.kwargs self));
    ev (cohere_Client key url ua); ev (cohere_AsyncClient key url ua)]).
Proof.
  intros key url ua Hllm Hc Ha. subst key url ua.
  unfold CohereDataset._load. simpl.
  rewrite Hllm. simpl. rewrite Hc. simpl. rewrite Ha. reflexivity.
Qed.

Lemma X15_cohere_load_attaches_clients_witness :
  let self :=
    {| CohereDataset.cohere_api_url := PyStr "https://api.cohere.ai";
       CohereDataset.cohere_api_key := PyStr "secret";
       CohereDataset.kwargs := [("model", PyStr "command")] |} in
  fst (outcome Local.fresh (CohereDataset._load self) 0) =
  Ok {| llm_id := 0; user_agent := "langchain";
        client := Some (CohereClient_at 1);
        async_client := Some (CohereClient_at 2) |}.
Proof.
  intros self. unfold outcome.
  rewrite (@X15_cohere_load_attaches_clients nat Local.fresh 0 1 2 3 self
             {| llm_id := 0; user_agent := "langchain";
                client := None; async_client := None |}
             (CohereClient_at 1) (CohereClient_at 2)
             eq_refl eq_refl eq_refl).
  reflexivity.
Defined.

(* ================================================================== *)
(** ** Deprecated names *)

Lemma class_of_In (name : string) (alias : class_)
    (table : list (string * class_)) :
  class_of name table = Some alias -> In (name, alias) table.
Proof.
  induction table as [|[k cls] rest IH]; simpl; [discriminate|].
  destruct (String.eqb name k) eqn:E.
  - apply String.eqb_eq in E. subst k. intros [= ->]. now left.
  - intros Hin. right. now apply IH.
Qed.

(** X16.  The module-level [__getattr__] of the three dataset modules,
    for any attribute name and any warning filter.  When it returns a
    class, the name asked for is that class's name with "Dataset" spelt
    "DataSet", and exactly one [KedroDeprecationWarning] was issued and
    let through.  When it raises, either no warning was issued and the
    exception is [AttributeError], or the one warning issued is what was
    raised. *)
Theorem X16_deprecated_names (repr : string -> string)
    (warn : Warning -> result unit) (name : string) :
  Forall
    (fun r : list Warning * result class_ =>
       match snd r with
       | Ok alias =>
           (exists stem, name = stem ++ "DataSet" /\
                         __name__ alias = stem ++ "Dataset") /\
           exists w, fst r = [w] /\
                     category w = "KedroDeprecationWarning" /\
                     warn w = Ok tt
       | Raise e =>
           (fst r = [] /\ exists msg, e = AttributeError msg) \/
           (exists w, fst r = [w] /\ warn w = Raise e)
       end)
    [biosequence_dataset.__getattr__ repr warn name;
     graphml_dataset.__getattr__ repr warn name;
     gbq_dataset.__getattr__ repr warn name].
Proof.
  assert (Hgen : forall module_name table,
    (forall n cls, In (n, cls) table ->
       exists stem, n = stem ++ "DataSet" /\ __name__ cls = stem ++ "Dataset") ->
    let r := module___getattr__ repr warn module_name table name in
    match snd r with
    | Ok alias =>
        (exists stem, name = stem ++ "DataSet" /\
                      __name__ alias = stem ++ "Dataset") /\
        exists w, fst r = [w] /\
                  category w = "KedroDeprecationWarning" /\
                  warn w = Ok tt
    | Raise e =>
        (fst r = [] /\ exists msg, e = AttributeError msg) \/
        (exists w, fst r = [w] /\ warn w = Raise e)
    end).
  { intros module_name table Htable. unfold module___getattr__.
    destruct (class_of name table) as [alias|] eqn:Ec.
    - apply class_of_In, Htable in Ec.
      match goal with
      | |- context [warn ?w0] => destruct (warn w0) as [[]|e] eqn:Ew
      end; simpl.
      + split; [exact Ec|]. eexists. repeat split. exact Ew.
      + right. eexists. split; [reflexivity | exact Ew].
    - simpl. left. split; [reflexivity|]. eexists. reflexivity. }
  repeat constructor.
  - apply Hgen. intros n cls [[= <- <-] | []].
    exists "BioSequence". split; reflexivity.
  - apply Hgen. intros n cls [[= <- <-] | []].
    exists "GraphML". split; reflexivity.
  - apply Hgen. intros n cls [[= <- <-] | [[= <- <-] | []]].
    + exists "GBQTable". split; reflexivity.
    + exists "GBQQuery". split; reflexivity.
Qed.

(* ================================================================== *)
(** ** Construction touches no data *)

(** X17.  Whatever the arguments and the environment, and whether it
    returns or raises, the constructor of each of the five adapters
    calls nothing but the constructors of credentials, of the BigQuery
    client and of the filesystem, three calls at most: it opens no file,
    probes no path or table and runs no query. *)
Theorem X17_construction_is_lazy (L : Lib) (W : Type) (h : handler W) (w : W)
    (a : init_args) :
  forallb builds_object (trace h (construct a) w) = true /\
  length (trace h (construct a) w) <= 3.
Proof.
  unfold trace.
  destruct a; unfold construct, BioSequenceDataset.__init__,
    GraphMLDataset.__init__, GBQTableDataset.__init__,
    GBQTableDataset._validate_location, GBQQueryDataset.__init__,
    CohereDataset.__init__, pop, lift, subscript;
    repeat
      (simpl;
       match goal with
       | |- context [h ?X ?c ?v] => destruct (h X c v) as [[?|?] ?]
       | |- context [get_protocol_and_path ?p ?v] =>
           destruct (get_protocol_and_path p v) as [[? ?]|?]
       | |- context [attr_setdefault ?v ?k ?x] =>
           destruct (attr_setdefault v k x)
       | |- context [py_neb ?x ?y] => destruct (py_neb x y)
       | |- context [validate_on_forbidden_chars ?d] =>
           destruct (validate_on_forbidden_chars d)
       | |- context [truthy_str ?s] => destruct (truthy_str s)
       | |- context [coerce_credentials ?c] => destruct c
       | |- context [dict_get ?k ?d] => destruct (dict_get k d)
       end);
    simpl; split; try reflexivity; lia.
Qed.
